(** * hwdog: hardware watchdog on an ATtiny13

    A shallow embedding of [hwdog.c]: the compile-time macros, the interrupt
    service routine, the prologue of [main] and the body of its endless loop,
    written as state transformers that also log what the port registers hold
    during every busy-wait.  The theorems at the end relate the prose
    description of the watchdog to this model. *)

From Stdlib Require Import ZArith List Bool Lia.
Import ListNotations.
Open Scope Z_scope.

(** ** Machine integers *)

(** [uint8_t] and [uint32_t] values are integers reduced modulo the width. *)
Definition u8 (x : Z) : Z := x mod 2 ^ 8.
Definition u32 (x : Z) : Z := x mod 2 ^ 32.

(** [_BV(bit)] of avr-libc. *)
Definition _BV (bit : Z) : Z := Z.shiftl 1 bit.

(** ** Compile-time configuration *)

(** The four numeric macros of lines 70-75. *)
Record macros : Type := mkMacros
  { TICK_MS : Z;
    TIMEOUT_MINUTES : Z;
    TIMEOUT_LED_MS : Z;
    ACTIVITY_LED_MS : Z }.

(** The values the source is shipped with. *)
Definition shipped : macros :=
  {| TICK_MS := 100;
     TIMEOUT_MINUTES := 3;
     TIMEOUT_LED_MS := 15100;
     ACTIVITY_LED_MS := 200 |}.

(** [TIMEOUT_TICKS]: every operand is cast to [uint32_t], the operators
    associate to the left, and each product wraps modulo 2^32. *)
Definition TIMEOUT_TICKS (m : macros) : Z :=
  u32 (u32 (u32 (TIMEOUT_MINUTES m) * u32 60) * u32 1000) / u32 (TICK_MS m).

(** The same quotient over the unbounded integers. *)
Definition timeout_ticks_exact (m : macros) : Z :=
  (TIMEOUT_MINUTES m * 60 * 1000) / TICK_MS m.

(** The values stored into the two [uint8_t] LED counters. *)
Definition TIMEOUT_LED_TICKS (m : macros) : Z := u8 (TIMEOUT_LED_MS m / TICK_MS m).
Definition ACTIVITY_LED_TICKS (m : macros) : Z := u8 (ACTIVITY_LED_MS m / TICK_MS m).

(** Bit numbers from the ATtiny13 register map. *)
Definition PB0 : Z := 0.
Definition PB1 : Z := 1.
Definition PB3 : Z := 3.
Definition PB4 : Z := 4.
Definition PCIE : Z := 5.
Definition PCINT4 : Z := 4.

Definition LED_ACTV : Z := PB3.
Definition PIN_KICK : Z := PB4.
Definition LED_TIME : Z := PB0.
Definition PIN_RSTO : Z := PB1.

(** ** State *)

(** The shared flag, the three locals of [main], and the I/O registers the
    program touches. *)
Record state : Type := mkState
  { activity_flag : bool;
    timeout_counter : Z;
    timeout_led_count : Z;
    activity_led_count : Z;
    DDRB : Z;
    PORTB : Z;
    GIMSK : Z;
    PCMSK : Z;
    SREG_I : bool }.

Definition set_activity_flag (v : bool) (s : state) : state :=
  mkState v (timeout_counter s) (timeout_led_count s) (activity_led_count s)
          (DDRB s) (PORTB s) (GIMSK s) (PCMSK s) (SREG_I s).
Definition set_timeout_counter (v : Z) (s : state) : state :=
  mkState (activity_flag s) v (timeout_led_count s) (activity_led_count s)
          (DDRB s) (PORTB s) (GIMSK s) (PCMSK s) (SREG_I s).
Definition set_timeout_led_count (v : Z) (s : state) : state :=
  mkState (activity_flag s) (timeout_counter s) v (activity_led_count s)
          (DDRB s) (PORTB s) (GIMSK s) (PCMSK s) (SREG_I s).
Definition set_activity_led_count (v : Z) (s : state) : state :=
  mkState (activity_flag s) (timeout_counter s) (timeout_led_count s) v
          (DDRB s) (PORTB s) (GIMSK s) (PCMSK s) (SREG_I s).
Definition set_DDRB (v : Z) (s : state) : state :=
  mkState (activity_flag s) (timeout_counter s) (timeout_led_count s)
          (activity_led_count s) v (PORTB s) (GIMSK s) (PCMSK s) (SREG_I s).
Definition set_PORTB (v : Z) (s : state) : state :=
  mkState (activity_flag s) (timeout_counter s) (timeout_led_count s)
          (activity_led_count s) (DDRB s) v (GIMSK s) (PCMSK s) (SREG_I s).
Definition set_GIMSK (v : Z) (s : state) : state :=
  mkState (activity_flag s) (timeout_counter s) (timeout_led_count s)
          (activity_led_count s) (DDRB s) (PORTB s) v (PCMSK s) (SREG_I s).
Definition set_PCMSK (v : Z) (s : state) : state :=
  mkState (activity_flag s) (timeout_counter s) (timeout_led_count s)
          (activity_led_count s) (DDRB s) (PORTB s) (GIMSK s) v (SREG_I s).
Definition set_SREG_I (v : bool) (s : state) : state :=
  mkState (activity_flag s) (timeout_counter s) (timeout_led_count s)
          (activity_led_count s) (DDRB s) (PORTB s) (GIMSK s) (PCMSK s) v.

(** What an observer of the pins sees: for every busy-wait, how long it lasts
    and what the direction and data registers hold meanwhile. *)
Inductive event : Type :=
| Delay (ms : Z) (ddrb portb : Z).

Definition ev_ms (e : event) : Z := let 'Delay ms _ _ := e in ms.
Definition ev_ddrb (e : event) : Z := let 'Delay _ d _ := e in d.
Definition ev_portb (e : event) : Z := let 'Delay _ _ p := e in p.

(** A pin drives its line when its direction bit is set. *)
Definition drives (pin : Z) (ddrb : Z) : bool := Z.testbit ddrb pin.
Definition rst_driven (e : event) : bool := drives PIN_RSTO (ev_ddrb e).

(** An LED is lit when its pin is an output at high level. *)
Definition lit (pin : Z) (s : state) : bool :=
  Z.testbit (DDRB s) pin && Z.testbit (PORTB s) pin.

(** ** Statements *)

Definition prog : Type := state -> state * list event.

Definition skip : prog := fun s => (s, []).

Definition and_then (p q : prog) : prog :=
  fun s =>
    let (s1, t1) := p s in
    let (s2, t2) := q s1 in
    (s2, t1 ++ t2).

Notation "p ;; q" := (and_then p q) (at level 61, right associativity).

(** A statement that only updates the state. *)
Definition upd (f : state -> state) : prog := fun s => (f s, []).

(** [_delay_ms(ms)]. *)
Definition _delay_ms (ms : Z) : prog :=
  fun s => (s, [Delay ms (DDRB s) (PORTB s)]).

(** [DDRB |= v], [DDRB &= ~v], [PORTB |= v], [PORTB &= ~v]. *)
Definition DDRB_or (v : Z) : prog :=
  upd (fun s => set_DDRB (u8 (Z.lor (DDRB s) v)) s).
Definition DDRB_and_not (v : Z) : prog :=
  upd (fun s => set_DDRB (u8 (Z.land (DDRB s) (Z.lnot v))) s).
Definition PORTB_or (v : Z) : prog :=
  upd (fun s => set_PORTB (u8 (Z.lor (PORTB s) v)) s).
Definition PORTB_and_not (v : Z) : prog :=
  upd (fun s => set_PORTB (u8 (Z.land (PORTB s) (Z.lnot v))) s).

(** A [for] loop with a fixed number of rounds. *)
Fixpoint times (n : nat) (body : prog) : prog :=
  match n with
  | O => skip
  | S k => body ;; times k body
  end.

(** [FLASH(x)], line 90; [FLASH_TEST] is [FLASH] under [#if 1]. *)
Definition FLASH (x : Z) : prog :=
  DDRB_or (_BV x) ;;
  times 4 (PORTB_or (_BV x) ;; _delay_ms 330 ;;
           PORTB_and_not (_BV x) ;; _delay_ms 330) ;;
  DDRB_and_not (_BV x).

Definition FLASH_TEST (x : Z) : prog := FLASH x.

(** ** The interrupt service routine, lines 85-88 *)

Definition ISR_PCINT0_vect (s : state) : state := set_activity_flag true s.

(** The pin-change interrupt of [PIN_KICK] is delivered only when it is
    enabled in [GIMSK], [PCMSK] and globally. *)
Definition irq_enabled (s : state) : bool :=
  SREG_I s && Z.testbit (GIMSK s) PCIE && Z.testbit (PCMSK s) PCINT4.

Definition kick (s : state) : state :=
  if irq_enabled s then ISR_PCINT0_vect s else s.

(** ** [main] *)

(** Power-on reset: the initialisers of lines 82 and 100-102, registers zero
    (all pins tri-stated), interrupts off. *)
Definition power_on : state :=
  {| activity_flag := false;
     timeout_counter := 0;
     timeout_led_count := 0;
     activity_led_count := 0;
     DDRB := 0;
     PORTB := 0;
     GIMSK := 0;
     PCMSK := 0;
     SREG_I := false |}.

(** Lines 104-119. *)
Definition prologue : prog :=
  DDRB_or (Z.lor (_BV LED_ACTV) (_BV LED_TIME)) ;;
  PORTB_or (Z.lor (_BV LED_ACTV) (_BV LED_TIME)) ;;
  _delay_ms 3000 ;;
  PORTB_and_not (Z.lor (_BV LED_ACTV) (_BV LED_TIME)) ;;
  upd (fun s => set_GIMSK (u8 (Z.lor (GIMSK s) (Z.shiftl 1 PCIE))) s) ;;
  upd (set_PCMSK (Z.shiftl 1 PCINT4)) ;;
  upd (set_SREG_I true).

(** Line 125. *)
Definition clear_flag : prog := upd (set_activity_flag false).

(** Lines 126-129. *)
Definition activity_rest (m : macros) : prog :=
  upd (set_timeout_counter 0) ;;
  upd (set_activity_led_count (ACTIVITY_LED_TICKS m)) ;;
  DDRB_or (_BV LED_ACTV) ;;
  PORTB_or (_BV LED_ACTV).

(** Lines 132-143, the body of the [else if]. *)
Definition timeout_block (m : macros) : prog :=
  FLASH_TEST PB3 ;;
  PORTB_or (_BV LED_TIME) ;;
  DDRB_or (_BV LED_TIME) ;;
  DDRB_or (_BV PIN_RSTO) ;;
  _delay_ms 500 ;;
  DDRB_and_not (_BV PIN_RSTO) ;;
  upd (set_timeout_led_count (TIMEOUT_LED_TICKS m)) ;;
  upd (set_timeout_counter 0).

(** Line 131 with its block: [timeout_counter ++ >= TIMEOUT_TICKS] compares
    the value read before the increment and stores the incremented one. *)
Definition idle_branch (m : macros) : prog :=
  fun s =>
    let old := timeout_counter s in
    let s1 := set_timeout_counter (u32 (old + 1)) s in
    if old >=? TIMEOUT_TICKS m then timeout_block m s1 else (s1, []).

(** Lines 145-151. *)
Definition timeout_led_phase : prog :=
  fun s =>
    if timeout_led_count s >? 0 then
      let s1 := set_timeout_led_count (u8 (timeout_led_count s - 1)) s in
      if timeout_led_count s1 =? 0 then PORTB_and_not (_BV LED_TIME) s1
      else (s1, [])
    else (s, []).

(** Lines 152-158. *)
Definition activity_led_phase : prog :=
  fun s =>
    if activity_led_count s >? 0 then
      let s1 := set_activity_led_count (u8 (activity_led_count s - 1)) s in
      if activity_led_count s1 =? 0 then PORTB_and_not (_BV LED_ACTV) s1
      else (s1, [])
    else (s, []).

Definition indicators : prog := timeout_led_phase ;; activity_led_phase.

(** Lines 123-144: the [if] / [else if]. *)
Definition engine (m : macros) : prog :=
  fun s =>
    if activity_flag s then (clear_flag ;; activity_rest m) s
    else idle_branch m s.

(** Lines 122-158: one round of [while (1)]. *)
Definition loop_body (m : macros) : prog :=
  _delay_ms 100 ;; engine m ;; indicators.

(** One tick: [k] tells whether the pin-change interrupt ran since the
    previous round tested the flag. *)
Definition tick (m : macros) (k : bool) : prog :=
  upd (fun s => if k then kick s else s) ;; loop_body m.

(** The state at the head of the loop before the first round. *)
Definition boot : state := fst (prologue power_on).

(** The state after the rounds driven by [ks], oldest first. *)
Fixpoint run (m : macros) (ks : list bool) (s : state) : state :=
  match ks with
  | [] => s
  | k :: ks' => run m ks' (fst (tick m k s))
  end.

(** The events of those rounds. *)
Fixpoint run_trace (m : macros) (ks : list bool) (s : state) : list event :=
  match ks with
  | [] => []
  | k :: ks' => snd (tick m k s) ++ run_trace m ks' (fst (tick m k s))
  end.

(** Whether a round asserts the reset line. *)
Definition fires (m : macros) (k : bool) (s : state) : bool :=
  existsb rst_driven (snd (tick m k s)).

(** For each round of a run, whether it fired and the idle counter it left. *)
Fixpoint history (m : macros) (ks : list bool) (s : state) : list (bool * Z) :=
  match ks with
  | [] => []
  | k :: ks' =>
      (fires m k s, timeout_counter (fst (tick m k s)))
        :: history m ks' (fst (tick m k s))
  end.

(** A build whose threshold is three ticks: three minutes in one-minute ticks. *)
Definition three_ticks : macros :=
  {| TICK_MS := 60000;
     TIMEOUT_MINUTES := 3;
     TIMEOUT_LED_MS := 15100;
     ACTIVITY_LED_MS := 200 |}.

(** ** Specification vocabulary and the interleaving model *)

(** The guarded decrement of an LED counter, lines 145-146 and 152-153. *)
Definition dec8 (c : Z) : Z := if c >? 0 then u8 (c - 1) else c.

(** What holds of the state each time the loop is back at line 122: the flag
    has been consumed, the counters are in the range of their types, the
    reset pin is an input and the pin-change interrupt is enabled. *)
Record wf (s : state) : Prop := mkWf
  { wf_flag : activity_flag s = false;
    wf_counter : 0 <= timeout_counter s < 2 ^ 32;
    wf_tled : 0 <= timeout_led_count s < 256;
    wf_aled : 0 <= activity_led_count s < 256;
    wf_rst : drives PIN_RSTO (DDRB s) = false;
    wf_irq : irq_enabled s = true }.

(** The rows of [history] for [n] silent ticks that start from idle count [c]
    and stay below the threshold. *)
Definition counting (c : Z) (n : nat) : list (bool * Z) :=
  map (fun i => (false, c + Z.of_nat i)) (List.seq 1 n).

(** The flag value that line 123 reads in a tick. *)
Definition consumes (k : bool) (s : state) : bool :=
  activity_flag (if k then kick s else s).

(** A trace is well pulsed when every busy-wait during which the reset pin
    drives its line lasts 500 ms at low level and is not preceded by another
    such wait; [prev] tells whether the wait before the trace was one. *)
Fixpoint pulses_ok (prev : bool) (tr : list event) : bool :=
  match tr with
  | [] => true
  | e :: tr' =>
      if rst_driven e then
        negb prev && (ev_ms e =? 500)
        && negb (Z.testbit (ev_portb e) PIN_RSTO) && pulses_ok true tr'
      else pulses_ok false tr'
  end.

(** The number of busy-waits of a trace during which the reset pin drives. *)
Definition pulses (tr : list event) : nat := length (filter rst_driven tr).

(** The data bit of the reset pin is clear, so the pin pulls low whenever it
    is made an output. *)
Definition rst_low (s : state) : Prop := Z.testbit (PORTB s) PIN_RSTO = false.

(** Where the main loop stands with respect to its accesses to the flag:
    before the wait of line 122, before the read of line 123, before the
    write of line 125 (the read saw the flag set), before lines 126-158, and
    before lines 131-158 (the read saw it clear). *)
Inductive pc : Type := L122 | L123 | L125 | L126 | L131.

(** Equality test on program points. *)
Definition pc_eqb (a b : pc) : bool :=
  match a, b with
  | L122, L122 | L123, L123 | L125, L125 | L126, L126 | L131, L131 => true
  | _, _ => false
  end.

(** One step of the main loop, from one flag access to the next. *)
Definition main_step (m : macros) (ms : pc * state) : pc * state :=
  let (p, s) := ms in
  match p with
  | L122 => (L123, fst (_delay_ms 100 s))
  | L123 => if activity_flag s then (L125, s) else (L131, s)
  | L125 => (L126, fst (clear_flag s))
  | L126 => (L122, fst ((activity_rest m ;; indicators) s))
  | L131 => (L122, fst ((idle_branch m ;; indicators) s))
  end.

(** The interrupt, taken between two steps of the main loop. *)
Definition irq (ms : pc * state) : pc * state := (fst ms, kick (snd ms)).

(** An interleaving is a list of actions: a step of the main loop or a
    delivery of the interrupt. *)
Inductive action : Type := Main | Irq.

(** The state an interleaving leads to. *)
Fixpoint exec (m : macros) (acts : list action) (ms : pc * state) : pc * state :=
  match acts with
  | [] => ms
  | Main :: acts' => exec m acts' (main_step m ms)
  | Irq :: acts' => exec m acts' (irq ms)
  end.

(** Runs the main loop alone up to its next read of the flag. *)
Fixpoint to_read (m : macros) (fuel : nat) (ms : pc * state) : pc * state :=
  match fuel with
  | O => ms
  | S fuel' =>
      if pc_eqb (fst ms) L123 then ms else to_read m fuel' (main_step m ms)
  end.

(** What the next read of the flag returns when no further interrupt comes. *)
Definition next_read (m : macros) (ms : pc * state) : bool :=
  activity_flag (snd (to_read m 4 ms)).

(** Some later read of the main loop, with no further interrupt, finds the
    flag set. *)
Definition seen_later (m : macros) (ms : pc * state) : Prop :=
  exists n : nat,
    fst (exec m (repeat Main n) ms) = L123 /\
    activity_flag (snd (exec m (repeat Main n) ms)) = true.

(** The claim as written: on every interleaving, a set of the flag by the
    interrupt is seen by a later read of the main loop. *)
Definition every_set_observed (m : macros) : Prop :=
  forall acts : list action, seen_later m (irq (exec m acts (L122, boot))).

(** Reachable states of the interleaving: the interrupt is enabled
    throughout, and the flag is set whenever the loop stands between its read
    and its clear. *)
Definition inv (ms : pc * state) : Prop :=
  irq_enabled (snd ms) = true /\
  (if pc_eqb (fst ms) L125 then activity_flag (snd ms) = true else True).


(** The nominal time a trace takes: the sum of its busy-waits, in ms. *)
Definition duration (tr : list event) : Z :=
  fold_right (fun e acc => ev_ms e + acc) 0 tr.

(** * Properties *)

(** ** Bits of the port registers *)

Lemma u8_range (x : Z) : 0 <= u8 x < 256.
Proof. unfold u8. change (2 ^ 8) with 256. apply Z.mod_pos_bound. lia. Qed.

Lemma u32_range (x : Z) : 0 <= u32 x < 2 ^ 32.
Proof. unfold u32. apply Z.mod_pos_bound. lia. Qed.

Lemma u8_small (x : Z) : 0 <= x < 256 -> u8 x = x.
Proof. intros H. unfold u8. change (2 ^ 8) with 256. apply Z.mod_small. exact H. Qed.

Lemma u32_small (x : Z) : 0 <= x < 2 ^ 32 -> u32 x = x.
Proof. intros H. unfold u32. apply Z.mod_small. exact H. Qed.

Lemma testbit_u8 (x j : Z) : 0 <= j < 8 -> Z.testbit (u8 x) j = Z.testbit x j.
Proof. intros H. unfold u8. apply Z.mod_pow2_bits_low. lia. Qed.

Lemma testbit_BV (b j : Z) : 0 <= b -> Z.testbit (_BV b) j = (b =? j).
Proof.
  intros H. unfold _BV. rewrite Z.shiftl_1_l. apply Z.pow2_bits_eqb. exact H.
Qed.

Lemma testbit_set (x v j : Z) :
  0 <= j < 8 -> Z.testbit (u8 (Z.lor x v)) j = Z.testbit x j || Z.testbit v j.
Proof. intros H. rewrite testbit_u8 by exact H. apply Z.lor_spec. Qed.

Lemma testbit_clear (x v j : Z) :
  0 <= j < 8 ->
  Z.testbit (u8 (Z.land x (Z.lnot v))) j = Z.testbit x j && negb (Z.testbit v j).
Proof.
  intros H. rewrite testbit_u8 by exact H.
  rewrite Z.land_spec, Z.lnot_spec by lia. reflexivity.
Qed.

(** Rewriting a bit test of a register expression down to the bits of the
    register it started from. *)
Ltac bits :=
  repeat first
    [ rewrite testbit_set by (cbv; intuition congruence)
    | rewrite testbit_clear by (cbv; intuition congruence)
    | rewrite Z.lor_spec
    | rewrite testbit_BV by (cbv; congruence) ];
  repeat match goal with
    | |- context [?a =? ?b] =>
        let r := eval cbv in (a =? b) in
        match r with
        | true => change (a =? b) with true
        | false => change (a =? b) with false
        end
    end;
  cbn [orb andb negb];
  rewrite ?orb_true_r, ?orb_false_r, ?andb_true_r, ?andb_false_r.

(** Unfolding the statements of the program on a state given by its fields. *)
Ltac exec_prog :=
  cbv beta iota zeta delta
    [tick loop_body engine idle_branch timeout_block FLASH_TEST FLASH times
     clear_flag activity_rest indicators timeout_led_phase activity_led_phase
     prologue and_then upd skip _delay_ms DDRB_or DDRB_and_not PORTB_or PORTB_and_not
     set_activity_flag set_timeout_counter set_timeout_led_count
     set_activity_led_count set_DDRB set_PORTB set_GIMSK set_PCMSK set_SREG_I
     activity_flag timeout_counter timeout_led_count activity_led_count
     DDRB PORTB GIMSK PCMSK SREG_I kick ISR_PCINT0_vect fst snd app].

Ltac split_if :=
  match goal with
  | |- context [if ?c then _ else _] =>
      lazymatch c with
      | context [if _ then _ else _] => fail
      | _ => destruct c eqn:?
      end
  end.

Ltac exec_all := exec_prog; repeat (split_if; exec_prog).

(** ** Frame properties of the indicator phase *)

Lemma indicators_state (s : state) :
  let s' := fst (indicators s) in
  activity_flag s' = activity_flag s /\
  timeout_counter s' = timeout_counter s /\
  timeout_led_count s' = dec8 (timeout_led_count s) /\
  activity_led_count s' = dec8 (activity_led_count s) /\
  DDRB s' = DDRB s /\
  GIMSK s' = GIMSK s /\ PCMSK s' = PCMSK s /\ SREG_I s' = SREG_I s /\
  snd (indicators s) = [].
Proof.
  destruct s as [f c tl al d p g pm i]. unfold dec8.
  exec_all; repeat split; reflexivity.
Qed.

(** ** States at the head of the loop *)

Lemma wf_boot : wf boot.
Proof. split; cbv; intuition congruence. Qed.

Lemma dec8_range (c : Z) : 0 <= c < 256 -> 0 <= dec8 c < 256.
Proof.
  intros H. unfold dec8. destruct (c >? 0); [apply u8_range | exact H].
Qed.

Lemma dec8_small (c : Z) : 0 <= c < 256 -> dec8 c = Z.max 0 (c - 1).
Proof.
  intros H. unfold dec8. destruct (Z.gtb_spec c 0).
  - rewrite u8_small by lia. lia.
  - lia.
Qed.

Ltac bit_goal :=
  unfold rst_driven, drives, lit, ev_ddrb, LED_ACTV, LED_TIME, PIN_RSTO,
         PB0, PB1, PB3, PB4 in *;
  cbn [existsb DDRB PORTB];
  bits.

Lemma TIMEOUT_TICKS_range (m : macros) : 0 <= TIMEOUT_TICKS m < 2 ^ 32.
Proof.
  unfold TIMEOUT_TICKS.
  pose proof (u32_range (u32 (u32 (TIMEOUT_MINUTES m) * u32 60) * u32 1000)) as Hn.
  pose proof (u32_range (TICK_MS m)) as Hd.
  destruct (Z.eq_dec (u32 (TICK_MS m)) 0) as [->|Hz].
  - rewrite Z.div_0_r. lia.
  - split.
    + apply Z.div_pos; lia.
    + apply Z.div_lt_upper_bound; nia.
Qed.

(** What one tick does to the idle counter and whether it pulses the reset
    line, for a state at the head of the loop. *)
Lemma tick_engine (m : macros) (k : bool) (s : state) :
  wf s ->
  fires m k s = negb k && (timeout_counter s >=? TIMEOUT_TICKS m) /\
  timeout_counter (fst (tick m k s)) =
    (if k then 0
     else if timeout_counter s >=? TIMEOUT_TICKS m then 0
          else timeout_counter s + 1).
Proof.
  destruct s as [f c tl al d p g pm i]. intros [Hf Hc Htl Hal Hr Hi].
  cbn [activity_flag timeout_counter timeout_led_count activity_led_count DDRB]
    in Hf, Hc, Htl, Hal, Hr.
  subst f. unfold fires.
  destruct k.
  - exec_prog. rewrite Hi. exec_all; cbn [negb andb]; split; try reflexivity;
      bit_goal; rewrite ?Hr; reflexivity.
  - exec_prog. destruct (c >=? TIMEOUT_TICKS m) eqn:E.
    + exec_all; cbn [negb andb]; split; try reflexivity;
        bit_goal; rewrite ?Hr; reflexivity.
    + pose proof (TIMEOUT_TICKS_range m) as HT.
      assert (Hu : u32 (c + 1) = c + 1) by (apply u32_small; lia).
      exec_all; cbn [negb andb]; rewrite ?Hu; split; try reflexivity;
        bit_goal; rewrite ?Hr; reflexivity.
Qed.

Lemma tick_wf (m : macros) (k : bool) (s : state) : wf s -> wf (fst (tick m k s)).
Proof.
  destruct s as [f c tl al d p g pm i]. intros [Hf Hc Htl Hal Hr Hi].
  cbn [activity_flag timeout_counter timeout_led_count activity_led_count DDRB]
    in Hf, Hc, Htl, Hal, Hr.
  subst f.
  pose proof (u8_range (tl - 1)). pose proof (u8_range (al - 1)).
  pose proof (u32_range (c + 1)).
  pose proof (u8_range (TIMEOUT_LED_MS m / TICK_MS m)).
  pose proof (u8_range (ACTIVITY_LED_MS m / TICK_MS m)).
  unfold irq_enabled in Hi. cbn [SREG_I GIMSK PCMSK] in Hi.
  destruct k; exec_prog; unfold irq_enabled; cbn [SREG_I GIMSK PCMSK];
    rewrite ?Hi; exec_all;
    (split;
     cbn [activity_flag timeout_counter timeout_led_count activity_led_count
          DDRB SREG_I GIMSK PCMSK];
     unfold TIMEOUT_LED_TICKS, ACTIVITY_LED_TICKS;
     try reflexivity; try assumption; try lia; try apply u8_range;
     bit_goal; rewrite ?Hr; reflexivity).
Qed.

Lemma run_wf (m : macros) (ks : list bool) (s : state) : wf s -> wf (run m ks s).
Proof.
  revert s. induction ks as [|k ks IH]; intros s H; cbn [run].
  - exact H.
  - apply IH, tick_wf, H.
Qed.

Lemma run_app (m : macros) (ks1 ks2 : list bool) (s : state) :
  run m (ks1 ++ ks2) s = run m ks2 (run m ks1 s).
Proof.
  revert s. induction ks1 as [|k ks1 IH]; intros s; cbn [run app].
  - reflexivity.
  - apply IH.
Qed.

(** ** Runs of idle ticks *)

Lemma counting_S (c : Z) (n : nat) :
  counting c (S n) = (false, c + 1) :: counting (c + 1) n.
Proof.
  unfold counting. cbn [List.seq map]. f_equal.
  rewrite <- seq_shift, map_map. apply map_ext. intros i.
  f_equal. lia.
Qed.

Lemma idle_history (m : macros) (n : nat) (s : state) :
  wf s ->
  timeout_counter s + Z.of_nat n <= TIMEOUT_TICKS m ->
  history m (repeat false n) s = counting (timeout_counter s) n /\
  timeout_counter (run m (repeat false n) s) = timeout_counter s + Z.of_nat n.
Proof.
  revert s. induction n as [|n IH]; intros s Hwf Hle.
  - cbn. split; [reflexivity | lia].
  - cbn [repeat history run]. rewrite counting_S.
    destruct (tick_engine m false s Hwf) as [Hfire Hcnt].
    assert (E : (timeout_counter s >=? TIMEOUT_TICKS m) = false).
    { rewrite Z.geb_leb. apply Z.leb_gt. lia. }
    rewrite E in Hfire, Hcnt. cbn [negb andb] in Hfire.
    rewrite Hfire, Hcnt.
    destruct (IH (fst (tick m false s))) as [IHh IHc].
    + apply tick_wf, Hwf.
    + rewrite Hcnt. lia.
    + rewrite IHh, IHc, Hcnt. split; [reflexivity | lia].
Qed.

Lemma history_app (m : macros) (ks1 ks2 : list bool) (s : state) :
  history m (ks1 ++ ks2) s = history m ks1 s ++ history m ks2 (run m ks1 s).
Proof.
  revert s. induction ks1 as [|k ks1 IH]; intros s; cbn [history run app].
  - reflexivity.
  - rewrite IH. reflexivity.
Qed.

(** From a head-of-loop state with idle count zero, [TIMEOUT_TICKS] silent
    ticks pass without a reset and the next silent tick fires. *)
Lemma idle_period (m : macros) (s : state) :
  wf s ->
  timeout_counter s = 0 ->
  history m (repeat false (S (Z.to_nat (TIMEOUT_TICKS m)))) s =
    counting 0 (Z.to_nat (TIMEOUT_TICKS m)) ++ [(true, 0)].
Proof.
  intros Hwf H0. pose proof (TIMEOUT_TICKS_range m) as HT.
  replace (S (Z.to_nat (TIMEOUT_TICKS m)))
    with (Z.to_nat (TIMEOUT_TICKS m) + 1)%nat by lia.
  rewrite repeat_app, history_app.
  destruct (idle_history m (Z.to_nat (TIMEOUT_TICKS m)) s Hwf) as [Hh Hc].
  { lia. }
  rewrite Hh, H0. f_equal.
  cbn [repeat history].
  destruct (tick_engine m false (run m (repeat false (Z.to_nat (TIMEOUT_TICKS m))) s))
    as [Hfire Hcnt].
  { apply run_wf, Hwf. }
  assert (E : (timeout_counter (run m (repeat false (Z.to_nat (TIMEOUT_TICKS m))) s)
               >=? TIMEOUT_TICKS m) = true).
  { rewrite Z.geb_leb. apply Z.leb_le. lia. }
  rewrite E in Hfire, Hcnt. rewrite Hfire, Hcnt. reflexivity.
Qed.

Lemma u8_eq_bits (x y : Z) :
  (forall j, 0 <= j < 8 -> Z.testbit x j = Z.testbit y j) -> u8 x = u8 y.
Proof.
  intros H. apply Z.bits_inj'. intros j Hj. unfold u8.
  destruct (Z.ltb_spec j 8).
  - rewrite !Z.mod_pow2_bits_low by lia. apply H. lia.
  - rewrite !Z.mod_pow2_bits_high by lia. reflexivity.
Qed.

Lemma consumes_wf (k : bool) (s : state) : wf s -> consumes k s = k.
Proof.
  intros [Hf _ _ _ _ Hi]. unfold consumes, kick. destruct k.
  - rewrite Hi. reflexivity.
  - exact Hf.
Qed.

(** C3: along every run, a tick leaves the idle counter at zero exactly when
    it consumed an observed activity or fired a reset; no other tick zeroes
    it. *)
Theorem idle_count_zeroed_only_by_activity_or_reset :
  forall (m : macros) (ks : list bool) (k : bool),
    let s := run m ks boot in
    (timeout_counter (fst (tick m k s)) =? 0) = consumes k s || fires m k s.
Proof.
  intros m ks k s.
  assert (Hwf : wf s) by (apply run_wf, wf_boot).
  rewrite (consumes_wf k s Hwf).
  destruct (tick_engine m k s Hwf) as [Hfire Hcnt].
  rewrite Hfire, Hcnt.
  destruct k; cbn [negb andb orb]; [reflexivity|].
  destruct (timeout_counter s >=? TIMEOUT_TICKS m); [reflexivity|].
  destruct Hwf as [_ Hc _ _ _ _]. apply Z.eqb_neq. lia.
Qed.

(** C1: the code compares the idle count read before the increment.  From
    boot with no activity the first [TIMEOUT_TICKS] ticks only count, the
    reset fires on tick [TIMEOUT_TICKS + 1], and a tick without activity
    fires exactly when the count it found was already at the threshold.
    With threshold 3 the first reset is on tick 4; the shipped build reaches
    count 1800 on tick 1800 without firing. *)
Theorem first_reset_one_tick_after_threshold :
  (forall m : macros,
      history m (repeat false (S (Z.to_nat (TIMEOUT_TICKS m)))) boot =
        counting 0 (Z.to_nat (TIMEOUT_TICKS m)) ++ [(true, 0)]) /\
  (forall (m : macros) (ks : list bool),
      fires m false (run m ks boot) =
        (timeout_counter (run m ks boot) >=? TIMEOUT_TICKS m)) /\
  TIMEOUT_TICKS three_ticks = 3 /\
  history three_ticks [false; false; false; false] boot =
    [(false, 1); (false, 2); (false, 3); (true, 0)] /\
  nth 1799 (history shipped (repeat false 1801) boot) (false, 0) = (false, 1800) /\
  nth 1800 (history shipped (repeat false 1801) boot) (false, 0) = (true, 0).
Proof.
  split; [|split; [|split; [|split; [|split]]]].
  - intros m. apply idle_period; [apply wf_boot | reflexivity].
  - intros m ks.
    destruct (tick_engine m false (run m ks boot)) as [Hfire _].
    + apply run_wf, wf_boot.
    + exact Hfire.
  - reflexivity.
  - vm_compute. reflexivity.
  - vm_compute. reflexivity.
  - vm_compute. reflexivity.
Qed.

(** C4: after a tick that fires, the idle counter is zero and the engine
    counts as it does from boot: [TIMEOUT_TICKS] silent ticks without a reset,
    then a reset on the next one, [TIMEOUT_TICKS + 1] ticks after the previous
    reset.  With threshold 3 and activity on tick 2 the idle counts are
    1,0,1,2,3,0 and the reset is on tick 6. *)
Theorem rearm_period_is_threshold_plus_one :
  forall (m : macros) (k : bool) (s : state),
    wf s ->
    fires m k s = true ->
    timeout_counter (fst (tick m k s)) = 0 /\
    history m (repeat false (S (Z.to_nat (TIMEOUT_TICKS m)))) (fst (tick m k s)) =
      history m (repeat false (S (Z.to_nat (TIMEOUT_TICKS m)))) boot /\
    history m (repeat false (S (Z.to_nat (TIMEOUT_TICKS m)))) (fst (tick m k s)) =
      counting 0 (Z.to_nat (TIMEOUT_TICKS m)) ++ [(true, 0)] /\
    history three_ticks [false; true; false; false; false; false] boot =
      [(false, 1); (false, 0); (false, 1); (false, 2); (false, 3); (true, 0)].
Proof.
  intros m k s Hwf Hfire.
  destruct (tick_engine m k s Hwf) as [Hf Hcnt].
  rewrite Hfire in Hf. symmetry in Hf. apply andb_true_iff in Hf.
  destruct Hf as [Hk Hge]. destruct k; [discriminate|].
  rewrite Hge in Hcnt.
  assert (Hper :
    history m (repeat false (S (Z.to_nat (TIMEOUT_TICKS m)))) (fst (tick m false s)) =
      counting 0 (Z.to_nat (TIMEOUT_TICKS m)) ++ [(true, 0)]).
  { apply idle_period; [apply tick_wf, Hwf | exact Hcnt]. }
  split; [exact Hcnt|]. split; [|split].
  - rewrite Hper. symmetry. apply idle_period; [apply wf_boot | reflexivity].
  - exact Hper.
  - vm_compute. reflexivity.
Qed.

Lemma rearm_period_is_threshold_plus_one_witness :
  wf (run three_ticks [false; false; false] boot) /\
  fires three_ticks false (run three_ticks [false; false; false] boot) = true /\
  timeout_counter
    (fst (tick three_ticks false (run three_ticks [false; false; false] boot))) = 0.
Proof.
  assert (Hwf : wf (run three_ticks [false; false; false] boot)).
  { split; vm_compute; intuition congruence. }
  split; [exact Hwf|]. split; [vm_compute; reflexivity|].
  apply (rearm_period_is_threshold_plus_one three_ticks false
           (run three_ticks [false; false; false] boot) Hwf).
  vm_compute. reflexivity.
Defined.

(** C2: a tick that finds the flag set clears it, zeroes the idle counter and
    arms the activity indicator (count loaded, LED lit); it executes no
    busy-wait of the reset pulse, whatever the idle count was, so the reset
    line is not asserted on that tick. *)
Theorem activity_preempts_timeout :
  forall (m : macros) (s : state),
    activity_flag s = true ->
    drives PIN_RSTO (DDRB s) = false ->
    activity_flag (fst (engine m s)) = false /\
    timeout_counter (fst (engine m s)) = 0 /\
    activity_led_count (fst (engine m s)) = ACTIVITY_LED_TICKS m /\
    lit LED_ACTV (fst (engine m s)) = true /\
    snd (engine m s) = [] /\
    existsb rst_driven (snd (loop_body m s)) = false /\
    activity_flag (fst (loop_body m s)) = false /\
    timeout_counter (fst (loop_body m s)) = 0.
Proof.
  intros m [f c tl al d p g pm i] Hf Hr.
  cbn [activity_flag DDRB] in Hf, Hr. subst f.
  unfold loop_body, indicators, engine. cbn [activity_flag].
  exec_all; repeat split; try reflexivity; bit_goal; rewrite ?Hr; reflexivity.
Qed.

Lemma activity_preempts_timeout_witness :
  activity_flag (set_timeout_counter 1800 (kick boot)) = true /\
  (timeout_counter (set_timeout_counter 1800 (kick boot))
     >=? TIMEOUT_TICKS shipped) = true /\
  existsb rst_driven
    (snd (loop_body shipped (set_timeout_counter 1800 (kick boot)))) = false.
Proof.
  split; [reflexivity|]. split; [reflexivity|].
  apply (activity_preempts_timeout shipped (set_timeout_counter 1800 (kick boot))).
  - reflexivity.
  - reflexivity.
Defined.

(** ** The LEDs along runs of the shipped build *)

Ltac absurd_test :=
  match goal with
  | H : ?c = ?b |- _ =>
      let r := eval vm_compute in c in
      match r with
      | true => match b with false => exfalso; vm_compute in H; discriminate H end
      | false => match b with true => exfalso; vm_compute in H; discriminate H end
      end
  end.

Ltac arith_hyps :=
  repeat match goal with
    | H : (_ >? _) = true |- _ => rewrite Z.gtb_ltb in H; apply Z.ltb_lt in H
    | H : (_ >? _) = false |- _ => rewrite Z.gtb_ltb in H; apply Z.ltb_ge in H
    | H : (_ >=? _) = true |- _ => rewrite Z.geb_leb in H; apply Z.leb_le in H
    | H : (_ >=? _) = false |- _ => rewrite Z.geb_leb in H; apply Z.leb_gt in H
    | H : (_ =? _) = true |- _ => apply Z.eqb_eq in H
    | H : (_ =? _) = false |- _ => apply Z.eqb_neq in H
    end.






Lemma loop_body_phases (m : macros) (s : state) :
  fst (loop_body m s) = fst (indicators (fst (engine m s))).
Proof.
  unfold loop_body, and_then, _delay_ms.
  destruct (engine m s) as [s1 t1]. cbn [fst].
  change (let (s2, t2) := timeout_led_phase s1 in
          let (s3, t3) := activity_led_phase s2 in (s3, t2 ++ t3))
    with (indicators s1).
  destruct (indicators s1) as [s2 t2]. reflexivity.
Qed.

(** C9: the indicator phase changes nothing but the two LED counts and the
    two LED bits of [PORTB]: flag, idle counter, direction register and every
    other [PORTB] bit stay as they are and no time passes; and in every tick,
    whichever branch the engine took, both counts leave the tick decremented
    (when positive) from what the engine left. *)
Theorem indicator_phase_frame :
  forall (m : macros) (s : state),
    activity_flag (fst (indicators s)) = activity_flag s /\
    timeout_counter (fst (indicators s)) = timeout_counter s /\
    DDRB (fst (indicators s)) = DDRB s /\
    snd (indicators s) = [] /\
    u8 (Z.land (PORTB (fst (indicators s)))
               (Z.lnot (Z.lor (_BV LED_TIME) (_BV LED_ACTV)))) =
    u8 (Z.land (PORTB s) (Z.lnot (Z.lor (_BV LED_TIME) (_BV LED_ACTV)))) /\
    timeout_led_count (fst (loop_body m s)) =
      dec8 (timeout_led_count (fst (engine m s))) /\
    activity_led_count (fst (loop_body m s)) =
      dec8 (activity_led_count (fst (engine m s))) /\
    activity_flag (fst (loop_body m s)) = activity_flag (fst (engine m s)) /\
    timeout_counter (fst (loop_body m s)) = timeout_counter (fst (engine m s)).
Proof.
  intros m s.
  destruct (indicators_state s) as (Hf & Hc & _ & _ & Hd & _ & _ & _ & Ht).
  destruct (indicators_state (fst (engine m s)))
    as (Hf' & Hc' & Htl' & Hal' & _).
  rewrite loop_body_phases.
  repeat split; try assumption.
  destruct s as [f c tl al d p g pm i].
  exec_all; cbn [PORTB]; try reflexivity;
    apply u8_eq_bits; intros j Hj;
    repeat first [ rewrite Z.land_spec
                 | rewrite testbit_clear by lia
                 | rewrite Z.lnot_spec by lia
                 | rewrite Z.lor_spec ];
    destruct (Z.testbit p j), (Z.testbit (_BV LED_TIME) j),
             (Z.testbit (_BV LED_ACTV) j); reflexivity.
Qed.

(** C10: the shipped threshold is 3 * 60 * 1000 / 100 = 1800 ticks, positive;
    each 32-bit product equals the unbounded one (nothing wraps) and the
    division leaves no remainder (nothing is truncated). *)
Theorem TIMEOUT_TICKS_shipped :
  TIMEOUT_TICKS shipped = 1800 /\
  TIMEOUT_TICKS shipped = timeout_ticks_exact shipped /\
  TIMEOUT_TICKS shipped = (3 * 60 * 1000) / 100 /\
  0 < TIMEOUT_TICKS shipped /\
  u32 (u32 (TIMEOUT_MINUTES shipped) * u32 60) = TIMEOUT_MINUTES shipped * 60 /\
  u32 (u32 (u32 (TIMEOUT_MINUTES shipped) * u32 60) * u32 1000) =
    TIMEOUT_MINUTES shipped * 60 * 1000 /\
  u32 (TICK_MS shipped) = TICK_MS shipped /\
  TIMEOUT_MINUTES shipped * 60 * 1000 < 2 ^ 32 /\
  (TIMEOUT_MINUTES shipped * 60 * 1000) mod TICK_MS shipped = 0 /\
  TIMEOUT_TICKS shipped * TICK_MS shipped = TIMEOUT_MINUTES shipped * 60 * 1000.
Proof. repeat split; vm_compute; congruence. Qed.

(** C8: the indicator phase runs in the very iteration that arms a timer, so
    a timer armed to N leaves that iteration at N-1.  In the shipped build
    the activity indicator is armed to 2, stands at 1 with the LED lit after
    the arming tick, and is at 0 with the LED off after the next tick; the
    timeout indicator, armed to 151 on the firing tick 1801, is lit for 150
    further ticks. *)
Theorem arming_tick_is_counted :
  (forall (m : macros) (s : state),
      activity_led_count (fst (loop_body m s)) =
        if activity_flag s then Z.max 0 (ACTIVITY_LED_TICKS m - 1)
        else dec8 (activity_led_count s)) /\
  (forall (m : macros) (s : state),
      timeout_led_count (fst (loop_body m s)) =
        if negb (activity_flag s) && (timeout_counter s >=? TIMEOUT_TICKS m)
        then Z.max 0 (TIMEOUT_LED_TICKS m - 1)
        else dec8 (timeout_led_count s)) /\
  ACTIVITY_LED_TICKS shipped = 2 /\
  TIMEOUT_LED_TICKS shipped = 151 /\
  (forall ks : list bool,
      let s1 := fst (tick shipped true (run shipped ks boot)) in
      let s2 := fst (tick shipped false s1) in
      activity_led_count s1 = 1 /\ lit LED_ACTV s1 = true /\
      activity_led_count s2 = 0 /\ lit LED_ACTV s2 = false) /\
  timeout_led_count (run shipped (repeat false 1801) boot) = 150 /\
  lit LED_TIME (run shipped (repeat false (1801 + 149)) boot) = true /\
  lit LED_TIME (run shipped (repeat false (1801 + 150)) boot) = false.
Proof.
  split; [|split; [|split; [|split; [|split; [|split; [|split]]]]]].
  - intros m s. rewrite loop_body_phases.
    destruct (indicators_state (fst (engine m s))) as (_ & _ & _ & Hal & _).
    rewrite Hal. destruct s as [f c tl al d p g pm i].
    cbn [activity_flag activity_led_count]. destruct f.
    + exec_prog. apply dec8_small. apply u8_range.
    + exec_prog. destruct (c >=? TIMEOUT_TICKS m); reflexivity.
  - intros m s. rewrite loop_body_phases.
    destruct (indicators_state (fst (engine m s))) as (_ & _ & Htl & _).
    rewrite Htl. destruct s as [f c tl al d p g pm i].
    cbn [activity_flag timeout_counter timeout_led_count]. destruct f.
    + reflexivity.
    + cbn [negb andb]. exec_prog. destruct (c >=? TIMEOUT_TICKS m).
      * exec_prog. apply dec8_small. apply u8_range.
      * reflexivity.
  - reflexivity.
  - reflexivity.
  - intros ks.
    assert (Hwf : wf (run shipped ks boot)) by (apply run_wf, wf_boot).
    destruct (run shipped ks boot) as [f c tl al d p g pm i].
    destruct Hwf as [Hf Hc Htl Hal Hr Hi].
    cbn [activity_flag] in Hf. subst f.
    cbv zeta. exec_prog. rewrite Hi.
    change (ACTIVITY_LED_TICKS shipped) with 2.
    change (TIMEOUT_TICKS shipped) with 1800.
    exec_all; try absurd_test;
      repeat split; try reflexivity; bit_goal; reflexivity.
  - vm_compute. reflexivity.
  - vm_compute. reflexivity.
  - vm_compute. reflexivity.
Qed.

(** ** The reset line *)

Lemma tick_rst_low (m : macros) (k : bool) (s : state) :
  rst_low s -> rst_low (fst (tick m k s)).
Proof.
  destruct s as [f c tl al d p g pm i]. unfold rst_low. cbn [PORTB]. intros Hp.
  destruct k; exec_all; cbn [PORTB]; bit_goal; rewrite ?Hp; reflexivity.
Qed.

Lemma tick_pulses (m : macros) (k : bool) (s : state) :
  wf s -> rst_low s ->
  pulses (snd (tick m k s)) = (if fires m k s then 1%nat else 0%nat) /\
  forall (b : bool) (rest : list event),
    pulses_ok b (snd (tick m k s) ++ rest) = pulses_ok (fires m k s) rest.
Proof.
  intros Hwf Hlow. destruct (tick_engine m k s Hwf) as [Hfire _].
  rewrite Hfire. clear Hfire.
  destruct s as [f c tl al d p g pm i]. destruct Hwf as [Hf Hc Htl Hal Hr Hi].
  unfold rst_low in Hlow.
  cbn [activity_flag timeout_counter DDRB PORTB] in Hf, Hr, Hlow |- *. subst f.
  unfold pulses.
  destruct k; cbn [negb andb].
  - exec_prog. rewrite Hi. exec_all; (split; [|intros b rest]);
      cbn [pulses_ok app filter]; bit_goal; rewrite ?Hr; reflexivity.
  - exec_prog. destruct (c >=? TIMEOUT_TICKS m) eqn:E.
    + exec_all; (split; [|intros b rest]);
        cbn [pulses_ok app filter ev_ms ev_portb];
        repeat (bit_goal; rewrite ?Hr, ?Hlow; cbv iota);
        cbn [negb andb length Z.eqb Pos.eqb]; reflexivity.
    + exec_all; (split; [|intros b rest]);
        cbn [pulses_ok app filter]; bit_goal; rewrite ?Hr; reflexivity.
Qed.

Lemma rst_low_boot : rst_low boot.
Proof. reflexivity. Qed.

Lemma run_rst_low (m : macros) (ks : list bool) (s : state) :
  rst_low s -> rst_low (run m ks s).
Proof.
  revert s. induction ks as [|k ks IH]; intros s H; cbn [run].
  - exact H.
  - apply IH, tick_rst_low, H.
Qed.

Lemma run_pulses_ok (m : macros) (ks : list bool) (s : state) (b : bool) :
  wf s -> rst_low s -> pulses_ok b (run_trace m ks s) = true.
Proof.
  revert s b. induction ks as [|k ks IH]; intros s b Hwf Hlow; cbn [run_trace].
  - reflexivity.
  - destruct (tick_pulses m k s Hwf Hlow) as [_ Happ]. rewrite Happ.
    apply IH; [apply tick_wf, Hwf | apply tick_rst_low, Hlow].
Qed.

(** In a round that takes the timeout branch the wait with the reset pin
    driving is the last wait of the round. *)
Lemma tick_pulse_last (m : macros) (s : state) :
  wf s -> rst_low s ->
  (timeout_counter s >=? TIMEOUT_TICKS m) = true ->
  rst_driven (last (snd (tick m false s)) (Delay 0 0 0)) = true /\
  ev_ms (last (snd (tick m false s)) (Delay 0 0 0)) = 500 /\
  Z.testbit (ev_portb (last (snd (tick m false s)) (Delay 0 0 0))) PIN_RSTO = false /\
  existsb rst_driven (removelast (snd (tick m false s))) = false /\
  duration (removelast (snd (tick m false s))) = 2740.
Proof.
  destruct s as [f c tl al d p g pm i]. intros [Hf _ _ _ Hr _] Hlow Hge.
  unfold rst_low in Hlow.
  cbn [activity_flag timeout_counter DDRB PORTB] in Hf, Hr, Hlow, Hge. subst f.
  exec_prog. rewrite Hge.
  exec_all; cbn [last removelast ev_ms ev_portb duration fold_right];
    repeat split; try reflexivity;
    bit_goal; rewrite ?Hr, ?Hlow; reflexivity.
Qed.

(** C6: over the whole execution (prologue, then any number of ticks) every
    busy-wait during which the reset pin drives its line is a 500 ms wait at
    low level, no two such waits are adjacent, the prologue contains none, and
    at the head of every loop round the pin is an input again.  A round drives
    the pin exactly when the engine fires a reset in it, that is when line 123
    read the flag clear and line 131 found the idle count at or above
    [TIMEOUT_TICKS]: such a round contains exactly one driving wait, its last
    one, 500 ms long, reached after 2740 ms with the pin an input, and the pin
    is an input again when the round ends; every other round contains no
    driving wait at all. *)
Theorem reset_line_only_pulsed :
  forall (m : macros) (ks : list bool),
    pulses_ok false (snd (prologue power_on) ++ run_trace m ks boot) = true /\
    pulses (snd (prologue power_on)) = 0%nat /\
    drives PIN_RSTO (DDRB power_on) = false /\
    drives PIN_RSTO (DDRB (run m ks boot)) = false /\
    forall k : bool,
      pulses (snd (tick m k (run m ks boot))) =
        (if fires m k (run m ks boot) then 1%nat else 0%nat) /\
      drives PIN_RSTO (DDRB (fst (tick m k (run m ks boot)))) = false /\
      fires m k (run m ks boot) =
        negb (consumes k (run m ks boot))
        && (timeout_counter (run m ks boot) >=? TIMEOUT_TICKS m) /\
      pulses (snd (tick m k (run m ks boot))) =
        (if negb (consumes k (run m ks boot))
            && (timeout_counter (run m ks boot) >=? TIMEOUT_TICKS m)
         then 1%nat else 0%nat) /\
      (if negb (consumes k (run m ks boot))
          && (timeout_counter (run m ks boot) >=? TIMEOUT_TICKS m)
       then
         rst_driven (last (snd (tick m k (run m ks boot))) (Delay 0 0 0)) = true /\
         ev_ms (last (snd (tick m k (run m ks boot))) (Delay 0 0 0)) = 500 /\
         Z.testbit (ev_portb (last (snd (tick m k (run m ks boot))) (Delay 0 0 0)))
                   PIN_RSTO = false /\
         existsb rst_driven (removelast (snd (tick m k (run m ks boot)))) = false /\
         duration (removelast (snd (tick m k (run m ks boot)))) = 2740
       else
         existsb rst_driven (snd (tick m k (run m ks boot))) = false).
Proof.
  intros m ks.
  assert (Hwf : wf (run m ks boot)) by (apply run_wf, wf_boot).
  assert (Hlow : rst_low (run m ks boot)) by (apply run_rst_low, rst_low_boot).
  split; [|split; [|split; [|split]]].
  - change (snd (prologue power_on)) with [Delay 3000 9 9].
    cbn [app pulses_ok]. change (rst_driven (Delay 3000 9 9)) with false.
    cbv iota. apply run_pulses_ok; [apply wf_boot | apply rst_low_boot].
  - reflexivity.
  - reflexivity.
  - apply (wf_rst _ Hwf).
  - intros k.
    destruct (tick_pulses m k _ Hwf Hlow) as [Hcount _].
    destruct (tick_engine m k _ Hwf) as [Hfire _].
    rewrite (consumes_wf k _ Hwf).
    split; [exact Hcount|].
    split; [apply (wf_rst _ (tick_wf m k _ Hwf))|].
    split; [exact Hfire|].
    split; [rewrite Hcount, Hfire; reflexivity|].
    unfold fires in Hfire.
    destruct k; cbn [negb andb] in Hfire |- *.
    + exact Hfire.
    + destruct (timeout_counter (run m ks boot) >=? TIMEOUT_TICKS m) eqn:E.
      * apply (tick_pulse_last m _ Hwf Hlow E).
      * exact Hfire.
Qed.

(** ** The flag between the interrupt and the loop *)

Ltac exec_irq :=
  exec_prog; unfold irq_enabled; cbn [SREG_I GIMSK PCMSK];
  repeat (split_if; exec_prog).

(** Lines 126-158 and 131-158 neither read nor write the flag or the
    interrupt masks, so an interrupt taken inside them acts as one taken
    before them. *)
Lemma kick_commutes (m : macros) (s : state) :
  fst ((activity_rest m ;; indicators) (kick s)) =
    kick (fst ((activity_rest m ;; indicators) s)) /\
  fst ((idle_branch m ;; indicators) (kick s)) =
    kick (fst ((idle_branch m ;; indicators) s)) /\
  fst (_delay_ms 100 (kick s)) = kick (fst (_delay_ms 100 s)).
Proof.
  destruct s as [f c tl al d p g pm i].
  repeat split; exec_irq; try discriminate; reflexivity.
Qed.

Lemma blocks_frame (m : macros) (s : state) :
  (activity_flag (fst ((activity_rest m ;; indicators) s)) = activity_flag s /\
   irq_enabled (fst ((activity_rest m ;; indicators) s)) = irq_enabled s /\
   timeout_counter (fst ((activity_rest m ;; indicators) s)) = 0) /\
  (activity_flag (fst ((idle_branch m ;; indicators) s)) = activity_flag s /\
   irq_enabled (fst ((idle_branch m ;; indicators) s)) = irq_enabled s).
Proof.
  destruct s as [f c tl al d p g pm i].
  repeat split; exec_irq; try discriminate; reflexivity.
Qed.

(** The steps compose to the loop body when no interrupt falls in between. *)
Lemma main_steps_loop_body (m : macros) (s : state) :
  exec m (if activity_flag s then [Main; Main; Main; Main] else [Main; Main; Main])
       (L122, s) = (L122, fst (loop_body m s)).
Proof.
  destruct s as [f c tl al d p g pm i]. destruct f.
  - cbn [activity_flag exec main_step _delay_ms fst clear_flag upd
         set_activity_flag timeout_counter timeout_led_count activity_led_count
         DDRB PORTB GIMSK PCMSK SREG_I].
    f_equal. exec_all; reflexivity.
  - cbn [activity_flag exec main_step _delay_ms fst].
    f_equal. exec_all; reflexivity.
Qed.

Lemma inv_main_step (m : macros) (ms : pc * state) : inv ms -> inv (main_step m ms).
Proof.
  destruct ms as [p s]. intros [Hi Hf]. cbn [fst snd] in Hi, Hf.
  destruct (blocks_frame m s) as [(_ & Ha & _) (_ & Hb)].
  destruct p; cbn [main_step].
  - split; [exact Hi | exact I].
  - destruct (activity_flag s) eqn:E; split; cbn [fst snd pc_eqb]; auto.
  - split; [|exact I]. cbn [snd]. destruct s; exact Hi.
  - split; [|exact I]. cbn [snd]. rewrite Ha. exact Hi.
  - split; [|exact I]. cbn [snd]. rewrite Hb. exact Hi.
Qed.

Lemma inv_irq (ms : pc * state) : inv ms -> inv (irq ms).
Proof.
  destruct ms as [p s]. intros [Hi Hf]. cbn [fst snd] in Hi, Hf.
  unfold irq, kick. cbn [fst snd]. rewrite Hi.
  split; cbn [fst snd].
  - destruct s; exact Hi.
  - destruct (pc_eqb p L125); [reflexivity | exact I].
Qed.

Lemma inv_exec (m : macros) (acts : list action) (ms : pc * state) :
  inv ms -> inv (exec m acts ms).
Proof.
  revert ms. induction acts as [|[|] acts IH]; intros ms H; cbn [exec].
  - exact H.
  - apply IH, inv_main_step, H.
  - apply IH, inv_irq, H.
Qed.

Lemma inv_boot : inv (L122, boot).
Proof. split; [reflexivity | exact I]. Qed.

(** Once the flag is clear the main loop alone never sets it. *)
Lemma flag_stays_clear (m : macros) (n : nat) (ms : pc * state) :
  activity_flag (snd ms) = false ->
  activity_flag (snd (exec m (repeat Main n) ms)) = false.
Proof.
  revert ms. induction n as [|n IH]; intros [p s] H; cbn [repeat exec].
  - exact H.
  - apply IH. cbn [snd] in H.
    destruct (blocks_frame m s) as [(Ha & _ & _) (Hb & _)].
    destruct p; cbn [main_step].
    + exact H.
    + rewrite H. exact H.
    + reflexivity.
    + cbn [snd]. rewrite Ha. exact H.
    + cbn [snd]. rewrite Hb. exact H.
Qed.

(** C5: the loop reads the flag at line 123 and clears it at line 125 as two
    steps with the interrupt enabled between them.  On every interleaving the
    interrupt stays enabled and the loop reaches its next read; a set of the
    flag anywhere but between those two steps is seen by that next read; a
    set between them finds the flag already set, changes nothing, and is
    cleared with it: the round in progress zeroes the idle counter and no
    later read sees the flag set unless the interrupt comes again. *)
Theorem flag_set_seen_or_merged :
  forall (m : macros) (acts : list action),
    let ms := exec m acts (L122, boot) in
    irq_enabled (snd ms) = true /\
    fst (to_read m 4 (irq ms)) = L123 /\
    match fst ms with
    | L125 =>
        irq ms = ms /\
        timeout_counter (snd (to_read m 4 (irq ms))) = 0 /\
        forall n : nat,
          activity_flag (snd (exec m (repeat Main (S n)) (irq ms))) = false
    | _ => next_read m (irq ms) = true
    end.
Proof.
  intros m acts ms.
  assert (H : inv ms) by (apply inv_exec, inv_boot).
  destruct ms as [p s]. destruct H as [Hi Hf]. cbn [fst snd] in Hi, Hf |- *.
  split; [exact Hi|].
  unfold next_read, irq, kick. cbn [fst snd]. rewrite Hi.
  destruct (blocks_frame m (ISR_PCINT0_vect s)) as [(Ha & _ & _) (Hb & _)].
  destruct (blocks_frame m (fst (clear_flag (ISR_PCINT0_vect s))))
    as [(Hc & _ & Hz) _].
  destruct p; cbn [pc_eqb] in Hf.
  - split; reflexivity.
  - split; reflexivity.
  - split; [|split; [|split]].
    + cbn [to_read fst snd pc_eqb main_step]. reflexivity.
    + destruct s as [f c tl al d q g pm i]. cbn [activity_flag] in Hf. subst f.
      reflexivity.
    + cbn [to_read fst snd pc_eqb main_step _delay_ms]. exact Hz.
    + intros n. cbn [repeat exec main_step]. apply flag_stays_clear. reflexivity.
  - split.
    + cbn [to_read fst snd pc_eqb main_step]. reflexivity.
    + cbn [to_read fst snd pc_eqb main_step _delay_ms]. rewrite Ha. reflexivity.
  - split.
    + cbn [to_read fst snd pc_eqb main_step]. reflexivity.
    + cbn [to_read fst snd pc_eqb main_step _delay_ms]. rewrite Hb. reflexivity.
Qed.

(** C5, the claim as written fails: after [Irq; Main; Main] the loop stands
    between its read and its clear with the interrupt enabled, and a set of
    the flag taken there is seen by no later read. *)
Lemma set_between_read_and_clear_not_seen :
  fst (exec shipped [Irq; Main; Main] (L122, boot)) = L125 /\
  irq_enabled (snd (exec shipped [Irq; Main; Main] (L122, boot))) = true /\
  next_read shipped (irq (exec shipped [Irq; Main; Main] (L122, boot))) = false /\
  ~ every_set_observed shipped.
Proof.
  split; [reflexivity|]. split; [reflexivity|]. split; [reflexivity|].
  intros H. destruct (H [Irq; Main; Main]) as [n [Hpc Hflag]].
  destruct n as [|n].
  - cbn in Hpc. discriminate Hpc.
  - cbn [repeat exec] in Hflag.
    rewrite flag_stays_clear in Hflag by reflexivity. discriminate Hflag.
Qed.

(** * Further properties of the program *)

(** Bit tests of register expressions at a symbolic bit number [j]. *)
Ltac bits_at j :=
  unfold LED_ACTV, LED_TIME, PIN_RSTO, PIN_KICK, PB0, PB1, PB3, PB4 in *;
  repeat first
    [ rewrite testbit_set by lia
    | rewrite testbit_clear by lia
    | rewrite Z.lor_spec
    | rewrite testbit_BV by lia ];
  rewrite ?Z.eqb_refl;
  repeat match goal with
    | |- context [?a =? j] =>
        replace (a =? j) with false by (symmetry; apply Z.eqb_neq; lia)
    end;
  cbn [orb andb negb];
  rewrite ?orb_true_r, ?orb_false_r, ?andb_true_r, ?andb_false_r.

(** ** [FLASH], line 90 *)

(** X1: [FLASH(x)] makes pin [x] an output, blinks it four times (330 ms
    high, 330 ms low), and ends with the pin an input again with its data bit
    clear, whatever the pin was before; every other bit of [DDRB] and
    [PORTB] and every variable is left alone. *)
Theorem FLASH_blinks_then_releases :
  forall (x : Z) (s : state),
    0 <= x < 8 ->
    map ev_ms (snd (FLASH x s)) = repeat 330 8 /\
    map (fun e => Z.testbit (ev_ddrb e) x) (snd (FLASH x s)) = repeat true 8 /\
    map (fun e => Z.testbit (ev_portb e) x) (snd (FLASH x s)) =
      [true; false; true; false; true; false; true; false] /\
    Z.testbit (DDRB (fst (FLASH x s))) x = false /\
    Z.testbit (PORTB (fst (FLASH x s))) x = false /\
    (forall j : Z, 0 <= j < 8 -> j <> x ->
       Z.testbit (DDRB (fst (FLASH x s))) j = Z.testbit (DDRB s) j /\
       Z.testbit (PORTB (fst (FLASH x s))) j = Z.testbit (PORTB s) j) /\
    activity_flag (fst (FLASH x s)) = activity_flag s /\
    timeout_counter (fst (FLASH x s)) = timeout_counter s /\
    timeout_led_count (fst (FLASH x s)) = timeout_led_count s /\
    activity_led_count (fst (FLASH x s)) = activity_led_count s.
Proof.
  intros x [f c tl al d p g pm i] Hx.
  exec_prog. cbn [map ev_ms ev_ddrb ev_portb repeat].
  repeat split; try reflexivity.
  - repeat f_equal; bits_at x; reflexivity.
  - repeat f_equal; bits_at x; reflexivity.
  - bits_at x. reflexivity.
  - bits_at x. reflexivity.
  - bits_at j. reflexivity.
  - bits_at j. reflexivity.
Qed.

Lemma FLASH_blinks_then_releases_witness :
  Z.testbit (DDRB boot) PB3 = true /\
  Z.testbit (DDRB (fst (FLASH PB3 boot))) PB3 = false.
Proof.
  split; [reflexivity|].
  destruct (FLASH_blinks_then_releases PB3 boot) as (_ & _ & _ & H & _).
  - unfold PB3. lia.
  - exact H.
Defined.

(** ** The prologue of [main], lines 104-119 *)

(** X2: from any register contents the prologue waits 3000 ms once, with both
    LED pins outputs at high level; afterwards both LEDs are off with their
    pins still outputs, the pin-change interrupt is enabled for PB4 and for no
    other pin, and the reset pin's direction and data bits, the flag and the
    three counters are as they were. *)
Theorem prologue_self_test :
  forall s : state,
    map ev_ms (snd (prologue s)) = [3000] /\
    forallb (fun e => drives LED_TIME (ev_ddrb e) && Z.testbit (ev_portb e) LED_TIME
                      && drives LED_ACTV (ev_ddrb e) && Z.testbit (ev_portb e) LED_ACTV)
            (snd (prologue s)) = true /\
    Z.testbit (PORTB (fst (prologue s))) LED_TIME = false /\
    Z.testbit (PORTB (fst (prologue s))) LED_ACTV = false /\
    drives LED_TIME (DDRB (fst (prologue s))) = true /\
    drives LED_ACTV (DDRB (fst (prologue s))) = true /\
    irq_enabled (fst (prologue s)) = true /\
    PCMSK (fst (prologue s)) = _BV PIN_KICK /\
    drives PIN_RSTO (DDRB (fst (prologue s))) = drives PIN_RSTO (DDRB s) /\
    Z.testbit (PORTB (fst (prologue s))) PIN_RSTO = Z.testbit (PORTB s) PIN_RSTO /\
    activity_flag (fst (prologue s)) = activity_flag s /\
    timeout_counter (fst (prologue s)) = timeout_counter s /\
    timeout_led_count (fst (prologue s)) = timeout_led_count s /\
    activity_led_count (fst (prologue s)) = activity_led_count s.
Proof.
  intros [f c tl al d p g pm i].
  exec_prog. unfold irq_enabled, drives.
  cbn [map forallb ev_ms ev_ddrb ev_portb SREG_I GIMSK PCMSK DDRB PORTB].
  repeat split; try reflexivity.
  - bit_goal. reflexivity.
  - bit_goal. reflexivity.
  - bit_goal. reflexivity.
  - bit_goal. reflexivity.
  - bit_goal. reflexivity.
  - unfold PCIE. rewrite testbit_set by lia.
    change (Z.testbit (Z.shiftl 1 5) 5) with true.
    change (Z.testbit (Z.shiftl 1 PCINT4) PCINT4) with true.
    rewrite orb_true_r. reflexivity.
  - bit_goal. reflexivity.
  - bit_goal. reflexivity.
Qed.

(** ** Time taken by the loop, lines 122-158 *)

Lemma duration_app (t1 t2 : list event) :
  duration (t1 ++ t2) = duration t1 + duration t2.
Proof.
  induction t1 as [|e t1 IH]; cbn [app duration fold_right].
  - reflexivity.
  - fold (duration (t1 ++ t2)). fold (duration t1). rewrite IH. lia.
Qed.

Lemma tick_duration (m : macros) (k : bool) (s : state) :
  wf s -> duration (snd (tick m k s)) = if fires m k s then 3240 else 100.
Proof.
  intros Hwf. destruct (tick_engine m k s Hwf) as [Hfire _]. rewrite Hfire.
  destruct s as [f c tl al d p g pm i]. destruct Hwf as [Hf _ _ _ _ Hi].
  cbn [activity_flag timeout_counter] in Hf |- *. subst f.
  destruct k; cbn [negb andb].
  - exec_prog. rewrite Hi. exec_all; reflexivity.
  - exec_prog. destruct (c >=? TIMEOUT_TICKS m); exec_all; reflexivity.
Qed.

(** X3: a loop round busy-waits 100 ms, except that a round taking the
    timeout branch busy-waits 3240 ms, of which 2740 ms (the 100 ms tick and
    the 2640 ms of [FLASH_TEST]) pass before the reset pin starts to drive.
    A run of n rounds from boot therefore lasts 100 n ms plus 3140 ms per
    reset. *)
Theorem loop_round_durations :
  forall (m : macros) (s : state) (ks : list bool),
    duration (snd (loop_body m s)) =
      (if negb (activity_flag s) && (timeout_counter s >=? TIMEOUT_TICKS m)
       then 3240 else 100) /\
    duration (removelast (snd (loop_body m s))) =
      (if negb (activity_flag s) && (timeout_counter s >=? TIMEOUT_TICKS m)
       then 2740 else 0) /\
    duration (run_trace m ks boot) =
      100 * Z.of_nat (length ks)
      + 3140 * Z.of_nat (length (filter fst (history m ks boot))).
Proof.
  intros m s ks. split; [|split].
  - destruct s as [f c tl al d p g pm i]. cbn [activity_flag timeout_counter].
    destruct f; cbn [negb andb].
    + exec_all; reflexivity.
    + exec_prog. destruct (c >=? TIMEOUT_TICKS m); exec_all; reflexivity.
  - destruct s as [f c tl al d p g pm i]. cbn [activity_flag timeout_counter].
    destruct f; cbn [negb andb].
    + exec_all; reflexivity.
    + exec_prog. destruct (c >=? TIMEOUT_TICKS m); exec_all; reflexivity.
  - assert (H : forall s0 : state, wf s0 ->
               duration (run_trace m ks s0) =
                 100 * Z.of_nat (length ks)
                 + 3140 * Z.of_nat (length (filter fst (history m ks s0)))).
    { induction ks as [|k ks IH]; intros s0 Hwf.
      - reflexivity.
      - cbn [run_trace history filter fst length].
        rewrite duration_app, (tick_duration m k s0 Hwf).
        rewrite (IH (fst (tick m k s0)) (tick_wf m k s0 Hwf)).
        destruct (fires m k s0); cbn [length]; lia. }
    apply H, wf_boot.
Qed.

(** ** Pins the program leaves alone *)

Lemma tick_other_bits (m : macros) (k : bool) (s : state) (j : Z) :
  0 <= j < 8 -> j <> 0 -> j <> 3 ->
  (j <> 1 -> Z.testbit (DDRB (fst (tick m k s))) j = Z.testbit (DDRB s) j) /\
  Z.testbit (PORTB (fst (tick m k s))) j = Z.testbit (PORTB s) j /\
  forallb (fun e => (Z.eqb j 1 || Bool.eqb (Z.testbit (ev_ddrb e) j)
                                           (Z.testbit (DDRB s) j))
                    && Bool.eqb (Z.testbit (ev_portb e) j) (Z.testbit (PORTB s) j))
          (snd (tick m k s)) = true.
Proof.
  intros Hj H0 H3. destruct s as [f c tl al d p g pm i].
  cbn [DDRB PORTB].
  destruct k; exec_irq;
    cbn [forallb ev_ddrb ev_portb];
    (split; [intros H1 | split]);
    try (bits_at j; rewrite ?eqb_reflx, ?orb_true_r; reflexivity).
  all: destruct (Z.eqb_spec j 1) as [->|H1]; cbn [orb];
    bits_at j; rewrite ?eqb_reflx; reflexivity.
Qed.

Lemma forallb_impl {A : Type} (f g : A -> bool) (l : list A) :
  (forall a, f a = true -> g a = true) ->
  forallb f l = true -> forallb g l = true.
Proof.
  intros Hfg H. apply forallb_forall. intros a Ha.
  apply Hfg. exact (proj1 (forallb_forall f l) H a Ha).
Qed.

Lemma run_quiet_bits (m : macros) (ks : list bool) (s : state) (j : Z) :
  0 <= j < 8 -> j <> 0 -> j <> 3 ->
  Z.testbit (PORTB s) j = false ->
  (j <> 1 -> Z.testbit (DDRB s) j = false) ->
  Z.testbit (PORTB (run m ks s)) j = false /\
  (j <> 1 -> Z.testbit (DDRB (run m ks s)) j = false) /\
  forallb (fun e => (Z.eqb j 1 || negb (Z.testbit (ev_ddrb e) j))
                    && negb (Z.testbit (ev_portb e) j))
          (run_trace m ks s) = true.
Proof.
  intros Hj H0 H3. revert s.
  induction ks as [|k ks IH]; intros s Hp Hd; cbn [run run_trace].
  - repeat split; assumption.
  - destruct (tick_other_bits m k s j Hj H0 H3) as (Td & Tp & Te).
    destruct (IH (fst (tick m k s))) as (Rp & Rd & Re).
    + rewrite Tp. exact Hp.
    + intros H1. rewrite (Td H1). exact (Hd H1).
    + split; [exact Rp|]. split; [exact Rd|].
      rewrite forallb_app, Re, andb_true_r.
      revert Te. apply forallb_impl. intros e He.
      apply andb_true_iff in He. destruct He as [He1 He2].
      apply eqb_prop in He2. rewrite He2, Hp. cbn [negb]. rewrite andb_true_r.
      destruct (Z.eqb_spec j 1) as [E|E]; [reflexivity|].
      cbn [orb] in He1 |- *. apply eqb_prop in He1. rewrite He1, (Hd E).
      reflexivity.
Qed.

(** X4: the program only ever touches PB0, PB1 and PB3.  From power-on, at
    every loop head and during every busy-wait of every run, each other pin of
    port B (the monitored input PB4 among them) is an input with its data bit
    clear, and the data bit of the reset pin PB1 is clear: the reset line is
    never driven high and the kick input never gets a pull-up. *)
Theorem only_three_pins_touched :
  forall (m : macros) (ks : list bool) (j : Z),
    0 <= j < 8 -> j <> PB0 -> j <> PB1 -> j <> PB3 ->
    drives j (DDRB (run m ks boot)) = false /\
    Z.testbit (PORTB (run m ks boot)) j = false /\
    forallb (fun e => negb (drives j (ev_ddrb e)) && negb (Z.testbit (ev_portb e) j))
            (run_trace m ks boot) = true /\
    Z.testbit (PORTB (run m ks boot)) PIN_RSTO = false /\
    forallb (fun e => negb (Z.testbit (ev_portb e) PIN_RSTO))
            (run_trace m ks boot) = true.
Proof.
  unfold PB0, PB1, PB3, PIN_RSTO, drives. intros m ks j Hj H0 H1 H3.
  assert (Bp : forall n, Z.testbit (PORTB boot) n = false).
  { intros n. apply Z.testbit_0_l. }
  assert (Bd : Z.testbit (DDRB boot) j = false).
  { change (DDRB boot) with 9.
    assert (C : j = 2 \/ j = 4 \/ j = 5 \/ j = 6 \/ j = 7) by lia.
    destruct C as [->|[->|[->|[->| ->]]]]; reflexivity. }
  destruct (run_quiet_bits m ks boot j Hj H0 H3 (Bp j) (fun _ => Bd))
    as (Rp & Rd & Re).
  destruct (run_quiet_bits m ks boot 1) as (Qp & _ & Qe); try lia.
  { apply Bp. }
  split; [exact (Rd H1)|]. split; [exact Rp|]. split; [|split; [exact Qp|]].
  - revert Re. apply forallb_impl. intros e He.
    replace (j =? 1) with false in He by (symmetry; apply Z.eqb_neq; lia).
    exact He.
  - revert Qe. apply forallb_impl. intros e He.
    apply andb_true_iff in He. exact (proj2 He).
Qed.

Lemma only_three_pins_touched_witness :
  drives PIN_KICK (DDRB (run shipped [true; false] boot)) = false /\
  Z.testbit (PORTB (run shipped [true; false] boot)) PIN_KICK = false.
Proof.
  assert (Hj : 0 <= PIN_KICK < 8) by (unfold PIN_KICK, PB4; lia).
  assert (H0 : PIN_KICK <> PB0) by discriminate.
  assert (H1 : PIN_KICK <> PB1) by discriminate.
  assert (H3 : PIN_KICK <> PB3) by discriminate.
  destruct (only_three_pins_touched shipped [true; false] PIN_KICK Hj H0 H1 H3)
    as (Hd & Hp & _).
  split; [exact Hd | exact Hp].
Defined.

(** ** What the idle counter counts *)

Lemma run_snoc (m : macros) (ks : list bool) (k : bool) (s : state) :
  run m (ks ++ [k]) s = fst (tick m k (run m ks s)).
Proof. rewrite run_app. reflexivity. Qed.

Lemma repeat_snoc {A : Type} (a : A) (n : nat) :
  repeat a n ++ [a] = repeat a (S n).
Proof.
  induction n as [|n IH]; cbn [repeat app].
  - reflexivity.
  - rewrite IH. reflexivity.
Qed.

Lemma counter_trailing :
  forall (m : macros) (ks : list bool),
    0 <= timeout_counter (run m ks boot) <= TIMEOUT_TICKS m /\
    exists pre : list bool,
      ks = pre ++ repeat false (Z.to_nat (timeout_counter (run m ks boot))).
Proof.
  intros m ks. pose proof (TIMEOUT_TICKS_range m) as HT.
  induction ks as [|k ks IH] using rev_ind.
  - cbn [run]. change (timeout_counter boot) with 0.
    split; [lia|]. exists []. reflexivity.
  - rewrite run_snoc.
    assert (Hwf : wf (run m ks boot)) by (apply run_wf, wf_boot).
    destruct (tick_engine m k (run m ks boot) Hwf) as [_ Hcnt]. rewrite Hcnt.
    destruct IH as [Hb [pre Hpre]].
    destruct k.
    + split; [lia|]. exists (ks ++ [true]). cbn [Z.to_nat repeat].
      rewrite app_nil_r. reflexivity.
    + destruct (Z.geb_spec (timeout_counter (run m ks boot)) (TIMEOUT_TICKS m)).
      * split; [lia|]. exists (ks ++ [false]). cbn [Z.to_nat repeat].
        rewrite app_nil_r. reflexivity.
      * split; [lia|]. exists pre.
        replace (Z.to_nat (timeout_counter (run m ks boot) + 1))
          with (S (Z.to_nat (timeout_counter (run m ks boot)))) by lia.
        rewrite <- repeat_snoc, app_assoc, <- Hpre. reflexivity.
Qed.

(** X5: at every loop head of every run the idle counter lies between 0 and
    [TIMEOUT_TICKS], and the ticks since the counter was last zeroed were all
    without activity: the run ends with as many silent ticks as the counter
    says. *)
Theorem idle_counter_bounded_and_trailing :
  forall (m : macros) (ks : list bool),
    0 <= timeout_counter (run m ks boot) <= TIMEOUT_TICKS m /\
    exists pre : list bool,
      ks = pre ++ repeat false (Z.to_nat (timeout_counter (run m ks boot))).
Proof.
  intros m ks. exact (counter_trailing m ks).
Qed.

(** X6: no reset without a full timeout of silence.  A round that asserts the
    reset line had no activity itself and was preceded by [TIMEOUT_TICKS]
    consecutive rounds without activity. *)
Theorem reset_needs_silence :
  forall (m : macros) (ks : list bool) (k : bool),
    fires m k (run m ks boot) = true ->
    k = false /\
    timeout_counter (run m ks boot) = TIMEOUT_TICKS m /\
    exists pre : list bool,
      ks = pre ++ repeat false (Z.to_nat (TIMEOUT_TICKS m)).
Proof.
  intros m ks k Hfire.
  assert (Hwf : wf (run m ks boot)) by (apply run_wf, wf_boot).
  destruct (tick_engine m k (run m ks boot) Hwf) as [Hf _].
  rewrite Hfire in Hf. symmetry in Hf. apply andb_true_iff in Hf.
  destruct Hf as [Hk Hge]. destruct k; [discriminate Hk|].
  rewrite Z.geb_leb in Hge. apply Z.leb_le in Hge.
  destruct (counter_trailing m ks) as [Hb Hpre].
  assert (E : timeout_counter (run m ks boot) = TIMEOUT_TICKS m) by lia.
  split; [reflexivity|]. split; [exact E|].
  rewrite E in Hpre. exact Hpre.
Qed.

Lemma reset_needs_silence_witness :
  fires three_ticks false (run three_ticks [false; false; false] boot) = true /\
  timeout_counter (run three_ticks [false; false; false] boot) = 3.
Proof.
  assert (H : fires three_ticks false (run three_ticks [false; false; false] boot)
              = true) by (vm_compute; reflexivity).
  split; [exact H|].
  exact (proj1 (proj2 (reset_needs_silence three_ticks [false; false; false] false H))).
Defined.

(** X7: the watchdog always bites.  From the loop head reached by any run,
    with idle count c, the next [TIMEOUT_TICKS - c] rounds without activity
    only count, and the round after them asserts the reset line: silence is
    answered by a reset after at most [TIMEOUT_TICKS + 1] rounds. *)
Theorem silence_leads_to_reset :
  forall (m : macros) (ks : list bool),
    history m
      (repeat false
         (S (Z.to_nat (TIMEOUT_TICKS m - timeout_counter (run m ks boot)))))
      (run m ks boot) =
    counting (timeout_counter (run m ks boot))
      (Z.to_nat (TIMEOUT_TICKS m - timeout_counter (run m ks boot)))
      ++ [(true, 0)].
Proof.
  intros m ks.
  set (s := run m ks boot).
  assert (Hwf : wf s) by (apply run_wf, wf_boot).
  destruct (counter_trailing m ks) as [Hb _]. fold s in Hb.
  set (r := Z.to_nat (TIMEOUT_TICKS m - timeout_counter s)).
  replace (S r) with (r + 1)%nat by lia.
  rewrite repeat_app, history_app.
  destruct (idle_history m r s Hwf) as [Hh Hc].
  { unfold r. lia. }
  rewrite Hh. f_equal. cbn [repeat history].
  destruct (tick_engine m false (run m (repeat false r) s)) as [Hfire Hcnt].
  { apply run_wf, Hwf. }
  assert (E : (timeout_counter (run m (repeat false r) s) >=? TIMEOUT_TICKS m)
              = true).
  { rewrite Z.geb_leb. apply Z.leb_le. rewrite Hc. unfold r. lia. }
  rewrite E in Hfire, Hcnt. rewrite Hfire, Hcnt. reflexivity.
Qed.

(** ** Activity on every tick *)

Lemma tick_true_lit (m : macros) (s : state) :
  irq_enabled s = true ->
  lit LED_ACTV (fst (tick m true s)) = negb (ACTIVITY_LED_TICKS m =? 1).
Proof.
  destruct s as [f c tl al d p g pm i]. intros Hi.
  pose proof (u8_range (ACTIVITY_LED_MS m / TICK_MS m)) as HN.
  fold (ACTIVITY_LED_TICKS m) in HN.
  assert (Hu : 0 < ACTIVITY_LED_TICKS m ->
               u8 (ACTIVITY_LED_TICKS m - 1) = ACTIVITY_LED_TICKS m - 1)
    by (intros H; apply u8_small; lia).
  exec_prog. rewrite Hi. exec_all; arith_hyps;
    try (rewrite Hu in * by lia);
    unfold lit; cbn [DDRB PORTB]; bit_goal;
    destruct (Z.eqb_spec (ACTIVITY_LED_TICKS m) 1); try reflexivity; lia.
Qed.

(** X8: with activity on every tick the reset never fires and the idle
    counter is zero after every round; the activity LED is then lit at every
    loop head, unless its duration is exactly one tick, in which case every
    round switches it off again before it ends. *)
Theorem activity_every_tick :
  forall (m : macros) (n : nat),
    history m (repeat true n) boot = repeat (false, 0) n /\
    lit LED_ACTV (run m (repeat true (S n)) boot) =
      negb (ACTIVITY_LED_TICKS m =? 1).
Proof.
  intros m n. split.
  - assert (H : forall s, wf s ->
                 history m (repeat true n) s = repeat (false, 0) n).
    { induction n as [|n IH]; intros s Hwf; cbn [repeat history].
      - reflexivity.
      - destruct (tick_engine m true s Hwf) as [Hfire Hcnt].
        rewrite Hfire, Hcnt, (IH _ (tick_wf m true s Hwf)). reflexivity. }
    apply H, wf_boot.
  - rewrite <- repeat_snoc, run_snoc. apply tick_true_lit.
    apply wf_irq, run_wf, wf_boot.
Qed.

(** ** An LED duration shorter than a tick *)

Lemma zero_led_kept (m : macros) (k : bool) (s : state) :
  TIMEOUT_LED_TICKS m = 0 ->
  timeout_led_count s = 0 -> lit LED_TIME s = true ->
  timeout_led_count (fst (tick m k s)) = 0 /\ lit LED_TIME (fst (tick m k s)) = true.
Proof.
  destruct s as [f c tl al d p g pm i]. intros HN Htl Hlit.
  unfold lit in Hlit. cbn [timeout_led_count DDRB PORTB] in Htl, Hlit. subst tl.
  apply andb_true_iff in Hlit. destruct Hlit as [Hd Hp].
  destruct k; exec_irq; rewrite ?HN in *; try discriminate;
    arith_hyps; try (exfalso; lia);
    (split; [reflexivity|]);
    unfold lit; cbn [DDRB PORTB]; bit_goal; rewrite ?Hd, ?Hp; reflexivity.
Qed.

(** X9: when [TIMEOUT_LED_MS] is less than one tick the timeout LED count is
    armed to zero, the guarded decrement never reaches the switch-off, and the
    timeout LED, lit by the first reset, stays lit at every later loop
    head. *)
Theorem zero_duration_led_never_off :
  forall (m : macros) (k : bool) (s : state) (ks : list bool),
    TIMEOUT_LED_TICKS m = 0 ->
    wf s ->
    fires m k s = true ->
    lit LED_TIME (run m ks (fst (tick m k s))) = true /\
    timeout_led_count (run m ks (fst (tick m k s))) = 0.
Proof.
  intros m k s ks HN Hwf Hfire.
  assert (H0 : timeout_led_count (fst (tick m k s)) = 0 /\
               lit LED_TIME (fst (tick m k s)) = true).
  { destruct (tick_engine m k s Hwf) as [Hf _].
    rewrite Hfire in Hf. symmetry in Hf. apply andb_true_iff in Hf.
    destruct Hf as [Hk Hge]. destruct k; [discriminate Hk|].
    destruct s as [f c tl al d p g pm i]. destruct Hwf as [Hflag _ _ _ _ _].
    cbn [activity_flag timeout_counter] in Hflag, Hge. subst f.
    exec_prog. rewrite Hge. exec_prog. rewrite HN.
    exec_all; arith_hyps; try (exfalso; lia);
      (split; [reflexivity|]);
      unfold lit; cbn [DDRB PORTB]; bit_goal; reflexivity. }
  clear Hfire Hwf. revert H0. generalize (fst (tick m k s)). clear s.
  induction ks as [|k' ks IH]; intros s [Hc Hl]; cbn [run].
  - split; assumption.
  - apply IH. apply zero_led_kept; assumption.
Qed.

Lemma zero_duration_led_never_off_witness :
  TIMEOUT_LED_TICKS three_ticks = 0 /\
  lit LED_TIME
    (run three_ticks [true; false; false]
       (fst (tick three_ticks false (run three_ticks [false; false; false] boot))))
  = true.
Proof.
  split; [reflexivity|].
  apply (zero_duration_led_never_off three_ticks false
           (run three_ticks [false; false; false] boot) [true; false; false]).
  - reflexivity.
  - split; vm_compute; intuition congruence.
  - vm_compute. reflexivity.
Defined.

(** ** The range of the configuration macros, lines 70-75 *)

(** X10: [TIMEOUT_TICKS] is the exact quotient for every timeout of 0 to
    71582 minutes and every tick period that fits 32 bits; with the 100 ms
    tick it is 600 ticks per minute.  At 71583 minutes the 32-bit product
    wraps and the threshold collapses to 127 ticks. *)
Theorem TIMEOUT_TICKS_exact_range :
  forall m : macros,
    0 <= TIMEOUT_MINUTES m <= 71582 ->
    0 < TICK_MS m < 2 ^ 32 ->
    TIMEOUT_TICKS m = timeout_ticks_exact m /\
    TIMEOUT_TICKS m = TIMEOUT_MINUTES m * 60000 / TICK_MS m /\
    TIMEOUT_TICKS (mkMacros 100 (TIMEOUT_MINUTES m) (TIMEOUT_LED_MS m)
                            (ACTIVITY_LED_MS m)) = 600 * TIMEOUT_MINUTES m /\
    TIMEOUT_TICKS (mkMacros 100 71583 (TIMEOUT_LED_MS m) (ACTIVITY_LED_MS m)) = 127.
Proof.
  intros m Hmin Htick.
  assert (E : forall t x, 0 <= x <= 71582 -> 0 < t < 2 ^ 32 ->
              u32 (u32 (u32 x * u32 60) * u32 1000) / u32 t = x * 60000 / t).
  { intros t x Hx Ht.
    rewrite (u32_small x) by lia. rewrite (u32_small 60) by lia.
    rewrite (u32_small 1000) by lia. rewrite (u32_small t) by lia.
    rewrite (u32_small (x * 60)) by lia.
    rewrite (u32_small (x * 60 * 1000)) by lia.
    f_equal. lia. }
  unfold TIMEOUT_TICKS, timeout_ticks_exact.
  cbn [TICK_MS TIMEOUT_MINUTES].
  rewrite (E (TICK_MS m) (TIMEOUT_MINUTES m) Hmin Htick).
  rewrite (E 100 (TIMEOUT_MINUTES m) Hmin) by lia.
  repeat split.
  - f_equal. lia.
  - replace (TIMEOUT_MINUTES m * 60000) with (600 * TIMEOUT_MINUTES m * 100) by lia.
    apply Z.div_mul. lia.
Qed.

Lemma TIMEOUT_TICKS_exact_range_witness :
  TIMEOUT_TICKS shipped = timeout_ticks_exact shipped.
Proof.
  apply (TIMEOUT_TICKS_exact_range shipped); cbn; lia.
Defined.

(** X11: an LED duration is stored in a [uint8_t]: the tick count is the exact
    quotient while that is at most 255 (25599 ms at the 100 ms tick) and is
    reduced modulo 256 beyond, so 25600 ms gives a count of zero. *)
Theorem LED_TICKS_exact_range :
  forall m : macros,
    0 < TICK_MS m ->
    0 <= TIMEOUT_LED_MS m < 256 * TICK_MS m ->
    0 <= ACTIVITY_LED_MS m < 256 * TICK_MS m ->
    TIMEOUT_LED_TICKS m = TIMEOUT_LED_MS m / TICK_MS m /\
    ACTIVITY_LED_TICKS m = ACTIVITY_LED_MS m / TICK_MS m /\
    TIMEOUT_LED_TICKS (mkMacros (TICK_MS m) (TIMEOUT_MINUTES m)
                                (TIMEOUT_LED_MS m + 256 * TICK_MS m)
                                (ACTIVITY_LED_MS m)) = TIMEOUT_LED_TICKS m /\
    TIMEOUT_LED_TICKS (mkMacros 100 (TIMEOUT_MINUTES m) 25600 (ACTIVITY_LED_MS m)) = 0.
Proof.
  intros m Ht Hl Ha.
  assert (Q : forall x, 0 <= x < 256 * TICK_MS m -> 0 <= x / TICK_MS m < 256).
  { intros x Hx. split.
    - apply Z.div_pos; lia.
    - apply Z.div_lt_upper_bound; lia. }
  unfold TIMEOUT_LED_TICKS, ACTIVITY_LED_TICKS.
  cbn [TICK_MS TIMEOUT_LED_MS].
  rewrite (u8_small _ (Q _ Hl)), (u8_small _ (Q _ Ha)).
  repeat split.
  rewrite Z.div_add by lia.
  unfold u8. change (2 ^ 8) with 256.
  replace (TIMEOUT_LED_MS m / TICK_MS m + 256)
    with (TIMEOUT_LED_MS m / TICK_MS m + 1 * 256) by lia.
  rewrite Z.mod_add by lia.
  apply Z.mod_small. apply Q. exact Hl.
Qed.

Lemma LED_TICKS_exact_range_witness :
  TIMEOUT_LED_TICKS shipped = 151 /\ ACTIVITY_LED_TICKS shipped = 2.
Proof.
  assert (Ht : 0 < TICK_MS shipped) by (cbn; lia).
  assert (Hl : 0 <= TIMEOUT_LED_MS shipped < 256 * TICK_MS shipped) by (cbn; lia).
  assert (Ha : 0 <= ACTIVITY_LED_MS shipped < 256 * TICK_MS shipped) by (cbn; lia).
  destruct (LED_TICKS_exact_range shipped Ht Hl Ha) as (H1 & H2 & _).
  split; [exact H1 | exact H2].
Defined.

(** X12: a threshold of zero (a timeout of zero minutes, or one shorter than
    a tick) makes every round without activity assert the reset line. *)
Theorem zero_threshold_resets_every_silent_round :
  forall (m : macros) (ks : list bool),
    TIMEOUT_TICKS m = 0 ->
    fires m false (run m ks boot) = true /\
    timeout_counter (run m ks boot) = 0.
Proof.
  intros m ks HT.
  assert (Hwf : wf (run m ks boot)) by (apply run_wf, wf_boot).
  destruct (tick_engine m false (run m ks boot) Hwf) as [Hfire _].
  destruct (counter_trailing m ks) as [Hb _].
  rewrite Hfire, HT. cbn [negb andb]. split; [|lia].
  rewrite Z.geb_leb. apply Z.leb_le. lia.
Qed.

Lemma zero_threshold_resets_every_silent_round_witness :
  TIMEOUT_TICKS (mkMacros 100 0 15100 200) = 0 /\
  fires (mkMacros 100 0 15100 200) false
        (run (mkMacros 100 0 15100 200) [true; false] boot) = true.
Proof.
  split; [reflexivity|].
  apply (zero_threshold_resets_every_silent_round
           (mkMacros 100 0 15100 200) [true; false]).
  reflexivity.
Defined.

(** ** The interrupt between the steps of the loop, lines 85-88 *)

Lemma kick_idempotent (s : state) : kick (kick s) = kick s.
Proof.
  destruct s as [f c tl al d p g pm i]. unfold kick.
  destruct (irq_enabled (mkState f c tl al d p g pm i)) eqn:E.
  - unfold ISR_PCINT0_vect, set_activity_flag.
    cbn [activity_flag timeout_counter timeout_led_count activity_led_count
         DDRB PORTB GIMSK PCMSK SREG_I].
    change (irq_enabled (mkState true c tl al d p g pm i))
      with (irq_enabled (mkState f c tl al d p g pm i)).
    rewrite E. reflexivity.
  - rewrite E. reflexivity.
Qed.

(** X13: the flag records that the interrupt ran, not how often: any number
    of interrupts taken in a row leaves the same state as one, so every
    interleaving continues from there as it would after a single one. *)
Theorem repeated_interrupts_collapse :
  forall (m : macros) (n : nat) (acts : list action) (ms : pc * state),
    exec m (repeat Irq (S n) ++ acts) ms = exec m (Irq :: acts) ms.
Proof.
  intros m n acts. induction n as [|n IH]; intros ms.
  - reflexivity.
  - change (repeat Irq (S (S n)) ++ acts) with (Irq :: (repeat Irq (S n) ++ acts)).
    cbn [exec]. rewrite IH. cbn [exec]. f_equal.
    unfold irq. cbn [fst snd]. rewrite kick_idempotent. reflexivity.
Qed.

(** X14: an interrupt commutes with every step of the loop except the read of
    the flag and its clear: taken before the wait of line 122 or before lines
    126-158 or 131-158 it leaves the state it would leave taken after them.
    With the interrupt enabled the two orders differ at the read (another
    branch is taken) and at the clear (the flag ends clear or set). *)
Theorem interrupt_commutes_outside_read_and_clear :
  forall (m : macros) (p : pc) (s : state),
    p <> L123 -> p <> L125 ->
    exec m [Irq; Main] (p, s) = exec m [Main; Irq] (p, s) /\
    (irq_enabled s = true ->
     activity_flag (snd (exec m [Irq; Main] (L125, s))) = false /\
     activity_flag (snd (exec m [Main; Irq] (L125, s))) = true) /\
    (irq_enabled s = true -> activity_flag s = false ->
     fst (exec m [Irq; Main] (L123, s)) = L125 /\
     fst (exec m [Main; Irq] (L123, s)) = L131).
Proof.
  intros m p s H123 H125.
  destruct (kick_commutes m s) as (Ha & Hb & Hc).
  split; [|split].
  - destruct p; try congruence; cbn [exec irq main_step fst snd];
      rewrite ?Ha, ?Hb, ?Hc; reflexivity.
  - intros Hi. cbn [exec irq main_step fst snd]. unfold kick.
    rewrite Hi. destruct s as [f c tl al d q g pm i].
    unfold irq_enabled in *. cbn [SREG_I GIMSK PCMSK] in Hi.
    cbn [clear_flag upd fst set_activity_flag ISR_PCINT0_vect SREG_I GIMSK PCMSK
         timeout_counter timeout_led_count activity_led_count DDRB PORTB activity_flag].
    rewrite Hi. split; reflexivity.
  - intros Hi Hf. cbn [exec irq main_step fst snd]. unfold kick.
    rewrite Hi, Hf. destruct s as [f c tl al d q g pm i]. split; reflexivity.
Qed.

Lemma interrupt_commutes_outside_read_and_clear_witness :
  exec shipped [Irq; Main] (L126, boot) = exec shipped [Main; Irq] (L126, boot).
Proof.
  apply (interrupt_commutes_outside_read_and_clear shipped L126 boot);
    discriminate.
Defined.

(** ** The timeout branch and the activity LED, lines 131-143 *)

(** X15: a round that takes the timeout branch leaves the activity LED dark
    and its pin an input, because [FLASH_TEST] uses that pin, even when the
    activity count is still positive; the count goes on as in any round.
    During the reset pulse the timeout LED is lit and the activity LED is
    not, and afterwards the timeout LED pin is an output. *)
Theorem timeout_round_darkens_activity_led :
  forall (m : macros) (s : state),
    activity_flag s = false ->
    (timeout_counter s >=? TIMEOUT_TICKS m) = true ->
    lit LED_ACTV (fst (loop_body m s)) = false /\
    drives LED_ACTV (DDRB (fst (loop_body m s))) = false /\
    activity_led_count (fst (loop_body m s)) = dec8 (activity_led_count s) /\
    drives LED_TIME (DDRB (fst (loop_body m s))) = true /\
    (let e := last (snd (loop_body m s)) (Delay 0 0 0) in
     ev_ms e = 500 /\
     drives LED_TIME (ev_ddrb e) && Z.testbit (ev_portb e) LED_TIME = true /\
     drives LED_ACTV (ev_ddrb e) = false /\
     Z.testbit (ev_portb e) LED_ACTV = false).
Proof.
  intros m [f c tl al d p g pm i] Hf Hge.
  cbn [activity_flag timeout_counter] in Hf, Hge. subst f.
  exec_prog. rewrite Hge. unfold dec8, drives. cbn [activity_led_count].
  exec_all; cbn [last ev_ms ev_ddrb ev_portb DDRB PORTB];
    repeat split; try reflexivity;
    unfold lit; cbn [DDRB PORTB]; bit_goal; reflexivity.
Qed.

Lemma timeout_round_darkens_activity_led_witness :
  lit LED_ACTV (run (mkMacros 100 0 15100 1000) [true] boot) = true /\
  activity_led_count (run (mkMacros 100 0 15100 1000) [true] boot) = 9 /\
  lit LED_ACTV
    (fst (loop_body (mkMacros 100 0 15100 1000)
            (run (mkMacros 100 0 15100 1000) [true] boot))) = false.
Proof.
  split; [reflexivity|]. split; [reflexivity|].
  apply (timeout_round_darkens_activity_led (mkMacros 100 0 15100 1000)
           (run (mkMacros 100 0 15100 1000) [true] boot)).
  - reflexivity.
  - reflexivity.
Defined.

(** ** Permanent silence *)

Lemma idle_period_state (m : macros) (s : state) :
  wf s -> timeout_counter s = 0 ->
  timeout_counter (run m (repeat false (S (Z.to_nat (TIMEOUT_TICKS m)))) s) = 0.
Proof.
  intros Hwf H0. pose proof (TIMEOUT_TICKS_range m) as HT.
  rewrite <- repeat_snoc, run_snoc.
  destruct (idle_history m (Z.to_nat (TIMEOUT_TICKS m)) s Hwf) as [_ Hc].
  { lia. }
  destruct (tick_engine m false (run m (repeat false (Z.to_nat (TIMEOUT_TICKS m))) s))
    as [_ Hcnt].
  { apply run_wf, Hwf. }
  rewrite Hcnt.
  destruct (Z.geb_spec
              (timeout_counter (run m (repeat false (Z.to_nat (TIMEOUT_TICKS m))) s))
              (TIMEOUT_TICKS m)); [reflexivity | lia].
Qed.

(** X16: a host that stays silent is reset again and again: with no activity
    ever, the rounds from boot fall into periods of [TIMEOUT_TICKS + 1]
    rounds, each counting up to the threshold without a reset and ending
    with a round that asserts the reset line. *)
Theorem permanent_silence_resets_periodically :
  forall (m : macros) (n : nat),
    history m (repeat false (n * S (Z.to_nat (TIMEOUT_TICKS m)))) boot =
      concat (repeat (counting 0 (Z.to_nat (TIMEOUT_TICKS m)) ++ [(true, 0)]) n).
Proof.
  intros m n.
  assert (H : forall s, wf s -> timeout_counter s = 0 ->
               history m (repeat false (n * S (Z.to_nat (TIMEOUT_TICKS m)))) s =
                 concat (repeat (counting 0 (Z.to_nat (TIMEOUT_TICKS m))
                                   ++ [(true, 0)]) n)).
  { induction n as [|n IH]; intros s Hwf H0.
    - reflexivity.
    - change (S n * S (Z.to_nat (TIMEOUT_TICKS m)))%nat
        with (S (Z.to_nat (TIMEOUT_TICKS m)) + n * S (Z.to_nat (TIMEOUT_TICKS m)))%nat.
      rewrite repeat_app, history_app.
      rewrite (idle_period m s Hwf H0).
      rewrite IH.
      + reflexivity.
      + apply run_wf, Hwf.
      + apply idle_period_state; assumption. }
  apply H; [apply wf_boot | reflexivity].
Qed.
